(** * celery_growthmonitor.models.job : path resolution and required-file promotion

    A shallow embedding of [celery_growthmonitor/models/job.py]: the path
    functions [_user_path], [root_job], [job_root], [job_data], [job_results],
    the post-save receiver [move_to_data], the manager hook
    [contribute_to_class], [AJob.slug_default] and [AJob.save].

    Python objects are split the way Python resolves attributes: class
    attributes live in [JobClass], instance attributes in [Job], and
    [getattr] looks at the instance first.  Exceptions are values of [exn];
    a routine that mutates the instance before raising returns the mutated
    state next to the exception. *)

From Stdlib Require Import ZArith String Ascii List Lia Bool.
From stdpp Require Import base option list gmap sets strings pretty.

Local Open Scope Z_scope.

(** ** Exceptions and results *)

Inductive exn : Type :=
  | AssertionError (msg : string)
  | AttributeError (msg : string)
  | FileNotFoundError (msg : string)
  | FileExistsError (path : string)
  | IndexError
  | TypeError
  | ValueError
  | OverflowError
  | RecursionError.

Inductive Res (A : Type) : Type :=
  | OK (a : A)
  | Raise (e : exn).
Arguments OK {A} a.
Arguments Raise {A} e.

Definition bind {A B : Type} (r : Res A) (k : A -> Res B) : Res B :=
  match r with
  | OK a => k a
  | Raise e => Raise e
  end.

Notation "'let!' x ':=' r 'in' k" := (bind r (fun x => k))
  (at level 10, x name, r at level 100, k at level 200).

(** ** [os.path] on POSIX path strings *)

Definition sep : ascii := "/"%char.

Definition startswith_sep (s : string) : bool :=
  match s with
  | String c _ => Ascii.eqb c sep
  | EmptyString => false
  end.

Fixpoint endswith_sep (s : string) : bool :=
  match s with
  | EmptyString => false
  | String c EmptyString => Ascii.eqb c sep
  | String _ s' => endswith_sep s'
  end.

Definition is_empty (s : string) : bool :=
  match s with
  | EmptyString => true
  | String _ _ => false
  end.

(** [posixpath.join(a, b)]: an absolute [b] replaces [a]; otherwise the two
    are glued with exactly one separator, none when [a] is empty or already
    ends with one. *)
Definition os_path_join (a b : string) : string :=
  if startswith_sep b then b
  else if is_empty a || endswith_sep a then a +:+ b
  else a +:+ String sep b.

Fixpoint has_sep (s : string) : bool :=
  match s with
  | EmptyString => false
  | String c s' => Ascii.eqb c sep || has_sep s'
  end.

(** [posixpath.basename(p)]: what follows the last separator. *)
Fixpoint os_path_basename (p : string) : string :=
  match p with
  | EmptyString => EmptyString
  | String c p' =>
      if has_sep p' then os_path_basename p'
      else if Ascii.eqb c sep then p' else p
  end.

(** [str.lower()] on the ASCII letters. *)
Definition ascii_lower (c : ascii) : ascii :=
  let n := nat_of_ascii c in
  if (Nat.leb 65 n && Nat.leb n 90)%bool then ascii_of_nat (n + 32) else c.

Fixpoint lower (s : string) : string :=
  match s with
  | EmptyString => EmptyString
  | String c s' => String (ascii_lower c) (lower s')
  end.

(** [str(n)] for an integer. *)
Definition str (n : Z) : string := pretty n.

(** ** Settings

    [celery_growthmonitor.settings] supplies [APP_ROOT], [TTL] and the Django
    [MEDIA_ROOT]; they are configuration values, taken here as a record. *)

Record Settings : Type := {
  APP_ROOT : string;
  TTL : Z;
  MEDIA_ROOT : string
}.

Definition TEMPORARY_JOB_FOLDER : string := "tmp".

(** ** Instances and classes *)

(** Instance attributes of a job.  [None] in [_tmp_id] and [_tmp_files]
    means the attribute is not set on the instance. *)
Record Job : Type := {
  id : option Z;
  _tmp_id : option Z;
  _tmp_files : option (list string);
  file_names : gmap string string;
  identifier : string;
  timestamp : option Z;
  closure : option Z
}.

(** Which built-in path function a code object belongs to. *)
Inductive Builtin : Type := BJobData | BJobResults.

(** A callable stored in [upload_to_data] / [upload_to_results]: either a
    function whose [__code__.co_code] is the one of a built-in path function,
    or some other function of the instance and the file name. *)
Inductive Callable : Type :=
  | CodeOf (b : Builtin)
  | UserFn (f : Job -> string -> string).

(** The value of an [upload_to_*] attribute: [None], a prefix string, or a
    callable. *)
Inductive UploadAttr : Type :=
  | UNone
  | UPrefix (prefix : string)
  | UCallable (c : Callable).

(** The value of the [job_root] class attribute: [None], a prefix, or a
    callable taking no argument besides the bound instance. *)
Inductive RootAttr : Type :=
  | RNone
  | RPrefix (prefix : string)
  | RCallable (f : Job -> string).

(** The [upload_to] of a declared [FileField]. *)
Inductive UploadTo : Type :=
  | ToJobRoot
  | ToJobData
  | ToJobResults
  | ToUser (f : Job -> string -> string).

(** Class attributes of a concrete job model.  An [option] that is [None]
    stands for an attribute the class does not have at all
    ([hasattr] is false); [AJob] itself defines [job_root = None] and
    [upload_to_results = None] but no [upload_to_data],
    [required_user_files] or [_tmp_id]: those come from the manager. *)
Record JobClass : Type := {
  __name__ : string;
  cls_job_root : RootAttr;
  upload_to_results : UploadAttr;
  upload_to_data : option UploadAttr;
  required_user_files : option (list string);
  cls_tmp_id : option Z;
  post_save_connected : bool;
  file_fields : gmap string UploadTo
}.

(** [getattr(instance, '_tmp_id', None)]: the instance attribute shadows the
    class attribute. *)
Definition getattr_tmp_id (c : JobClass) (j : Job) : option Z :=
  match _tmp_id j with
  | Some v => Some v
  | None => cls_tmp_id c
  end.

(** Truth values of the Python objects involved. *)
Definition truthy_int (v : option Z) : bool :=
  match v with
  | Some n => negb (n =? 0)
  | None => false
  end.

Definition truthy_list {A : Type} (v : option (list A)) : bool :=
  match v with
  | Some (_ :: _) => true
  | _ => false
  end.

Definition str_opt_int (v : option Z) : string :=
  match v with
  | Some n => str n
  | None => "None"
  end.

Section Paths.

Variable settings : Settings.

(** The head of the job folder when [job_root] is not a callable. *)
Definition root_head (c : JobClass) : string :=
  match cls_job_root c with
  | RPrefix p =>
      if is_empty p then os_path_join (APP_ROOT settings) (lower (__name__ c))
      else p
  | _ => os_path_join (APP_ROOT settings) (lower (__name__ c))
  end.

(** The condition under which [root_job] picks the temporary tail. *)
Definition uses_tmp (c : JobClass) (j : Job) : bool :=
  negb (truthy_int (id j))
  || (truthy_int (id j) && truthy_int (getattr_tmp_id c j)
      && negb (truthy_list (_tmp_files j))).

Definition manager_assertion : string :=
  "Please use the <class 'celery_growthmonitor.models.job.JobWithRequiredUserFilesManager'> manager".

Definition root_job (c : JobClass) (j : Job) : Res string :=
  match cls_job_root c with
  | RCallable f => OK (f j)
  | _ =>
      let head := root_head c in
      if uses_tmp c j then
        match getattr_tmp_id c j with
        | None => Raise (AssertionError manager_assertion)
        | Some t =>
            OK (os_path_join head (os_path_join TEMPORARY_JOB_FOLDER (str t)))
        end
      else OK (os_path_join head (str_opt_int (id j)))
  end.

Definition job_root (c : JobClass) (j : Job) (filename : string) : Res string :=
  let! root := root_job c j in
  OK (os_path_join root filename).

(** A data file attached to a job: [ADataFile] with its [job] foreign key
    and the [upload_to_data] attribute of its own class. *)
Record DataFile : Type := {
  job_class : JobClass;
  job : Job;
  df_upload_to_data : UploadAttr
}.

(** What the path functions receive as [instance]. *)
Inductive Instance : Type :=
  | AJobInst (c : JobClass) (j : Job)
  | ADataFileInst (d : DataFile).

Definition instance_job (inst : Instance) : Job :=
  match inst with
  | AJobInst _ j => j
  | ADataFileInst d => job d
  end.

(** [f.__code__.co_code], up to what [_user_path] compares it with. *)
Inductive CoCode : Type := CoJobData | CoJobResults | CoOther.

Definition co_code (f : Callable) : CoCode :=
  match f with
  | CodeOf BJobData => CoJobData
  | CodeOf BJobResults => CoJobResults
  | UserFn _ => CoOther
  end.

Definition co_code_eqb (a b : CoCode) : bool :=
  match a, b with
  | CoJobData, CoJobData | CoJobResults, CoJobResults | CoOther, CoOther => true
  | _, _ => false
  end.

(** [_user_path(attribute_or_prefix, filename)].  [call] is the Python call
    of a callable attribute on [filename]; it is only reached for a callable
    whose code is neither [job_data]'s nor [job_results]'s. *)
Definition _user_path (call : Callable -> string -> Res string)
    (attribute_or_prefix : UploadAttr) (filename : string)
  : Res (option string) :=
  match attribute_or_prefix with
  | UNone => OK None
  | UPrefix p =>
      if is_empty p then OK None else OK (Some (os_path_join p filename))
  | UCallable f =>
      if negb (co_code_eqb (co_code f) CoJobData)
         && negb (co_code_eqb (co_code f) CoJobResults)
      then let! r := call f filename in OK (Some r)
      else OK None
  end.

(** Python's [x or d] for an optional string. *)
Definition or_else (x : option string) (d : string) : string :=
  match x with
  | Some s => if is_empty s then d else s
  | None => d
  end.

Definition job_data_with (call : Callable -> string -> Res string)
    (inst : Instance) (filename : string) : Res string :=
  match inst with
  | ADataFileInst d =>
      let! head := root_job (job_class d) (job d) in
      let! t := _user_path call (df_upload_to_data d) filename in
      OK (os_path_join head (or_else t (os_path_join "data" filename)))
  | AJobInst c j =>
      let! head := root_job c j in
      match upload_to_data c with
      | None => Raise (AttributeError "upload_to_data")
      | Some a =>
          let! t := _user_path call a filename in
          OK (os_path_join head (or_else t (os_path_join "data" filename)))
      end
  end.

Definition job_results_with (call : Callable -> string -> Res string)
    (inst : Instance) (filename : string) : Res string :=
  match inst with
  | ADataFileInst _ => Raise (AttributeError "upload_to_results")
  | AJobInst c j =>
      let! t := _user_path call (upload_to_results c) filename in
      let! root := root_job c j in
      OK (os_path_join root (or_else t (os_path_join "results" filename)))
  end.

(** Calling a callable attribute of [inst] on a file name.  A callable that
    is a built-in path function runs that function on the same instance, one
    Python frame deeper; [depth] is the number of frames left before
    [RecursionError]. *)
Fixpoint call (depth : nat) (inst : Instance) (f : Callable)
    (filename : string) {struct depth} : Res string :=
  match depth with
  | O => Raise RecursionError
  | S d =>
      match f with
      | UserFn g => OK (g (instance_job inst) filename)
      | CodeOf BJobData => job_data_with (call d inst) inst filename
      | CodeOf BJobResults => job_results_with (call d inst) inst filename
      end
  end.

(** [sys.getrecursionlimit()]. *)
Definition recursion_limit : nat := 1000.

Definition job_data (inst : Instance) (filename : string) : Res string :=
  job_data_with (call recursion_limit inst) inst filename.

Definition job_results (inst : Instance) (filename : string) : Res string :=
  job_results_with (call recursion_limit inst) inst filename.

(** [file.field.upload_to(instance, filename)] for a declared file field. *)
Definition upload_to (u : UploadTo) (c : JobClass) (j : Job)
    (filename : string) : Res string :=
  match u with
  | ToJobRoot => job_root c j filename
  | ToJobData => job_data (AJobInst c j) filename
  | ToJobResults => job_results (AJobInst c j) filename
  | ToUser f => OK (f j filename)
  end.

End Paths.

(** ** The file system behind [file.storage], [shutil] and [os.makedirs]

    Files are a finite map from path to contents, directories a finite set of
    paths.  Storage names are used as paths as they are. *)

Definition bytes : Type := list Byte.byte.

Record FS : Type := {
  fs_files : gmap string bytes;
  fs_dirs : gset string
}.

(** The proper ancestors of a path: [a] and [a/b] for [a/b/c]. *)
Fixpoint ancestors_from (seen rest : string) : list string :=
  match rest with
  | EmptyString => []
  | String ch rest' =>
      if Ascii.eqb ch sep
      then (if is_empty seen then [] else [seen])
             ++ ancestors_from (seen +:+ String ch EmptyString) rest'
      else ancestors_from (seen +:+ String ch EmptyString) rest'
  end.

Definition ancestors (path : string) : list string :=
  ancestors_from EmptyString path.

(** [p] lies strictly below the directory [d]. *)
Definition under (d p : string) : bool := String.prefix (d +:+ String sep EmptyString) p.

Section Storage.

(** [Storage.get_alternative_name]: the name Django picks when the requested
    one is taken (it appends a random suffix). *)
Variable get_alternative_name : FS -> string -> string.

Definition get_available_name (fs : FS) (name : string) : string :=
  match fs_files fs !! name with
  | Some _ => get_alternative_name fs name
  | None => name
  end.

(** [storage.save(name, file)] for a file whose contents are read from
    [source]; returns the new file system (the caller drops the name
    actually used). *)
Definition storage_save (fs : FS) (name source : string) : Res FS :=
  match fs_files fs !! source with
  | None => Raise (FileNotFoundError source)
  | Some content =>
      let target := get_available_name fs name in
      OK {| fs_files := <[target := content]> (fs_files fs);
            fs_dirs := list_to_set (ancestors target) ∪ fs_dirs fs |}
  end.

(** [storage.delete(name)]: quiet when the file is absent. *)
Definition storage_delete (fs : FS) (name : string) : FS :=
  {| fs_files := delete name (fs_files fs); fs_dirs := fs_dirs fs |}.

End Storage.

(** [shutil.rmtree(path)]. *)
Definition rmtree (fs : FS) (path : string) : Res FS :=
  if decide (path ∈ fs_dirs fs) then
    OK {| fs_files := filter (fun kv => under path kv.1 = false) (fs_files fs);
          fs_dirs := filter (fun d => d <> path /\ under path d = false) (fs_dirs fs) |}
  else Raise (FileNotFoundError path).

(** A path without its trailing separators: [a/b/] names the directory
    [a/b]. *)
Fixpoint rstrip_sep (path : string) : string :=
  match path with
  | EmptyString => EmptyString
  | String ch rest =>
      match rstrip_sep rest with
      | EmptyString =>
          if Ascii.eqb ch sep then EmptyString else String ch EmptyString
      | kept => String ch kept
      end
  end.

(** [os.makedirs(name, exist_ok=...)]. *)
Definition makedirs (fs : FS) (name : string) (exist_ok : bool) : Res FS :=
  let path := rstrip_sep name in
  if decide (path ∈ fs_dirs fs) then
    if exist_ok then OK fs else Raise (FileExistsError path)
  else
    match fs_files fs !! path with
    | Some _ => Raise (FileExistsError path)
    | None =>
        OK {| fs_files := fs_files fs;
              fs_dirs := {[ path ]} ∪ list_to_set (ancestors path) ∪ fs_dirs fs |}
    end.

(** ** Random numbers

    [random.randrange(lo, hi)] on an explicit raw draw. *)
Definition randrange (lo hi draw : Z) : Z := lo + draw mod (hi - lo).

(** ** Instance attribute updates *)

Definition set_id (v : option Z) (j : Job) : Job :=
  {| id := v; _tmp_id := _tmp_id j; _tmp_files := _tmp_files j;
     file_names := file_names j; identifier := identifier j;
     timestamp := timestamp j; closure := closure j |}.

Definition set_tmp_id (v : option Z) (j : Job) : Job :=
  {| id := id j; _tmp_id := v; _tmp_files := _tmp_files j;
     file_names := file_names j; identifier := identifier j;
     timestamp := timestamp j; closure := closure j |}.

Definition set_tmp_files (v : option (list string)) (j : Job) : Job :=
  {| id := id j; _tmp_id := _tmp_id j; _tmp_files := v;
     file_names := file_names j; identifier := identifier j;
     timestamp := timestamp j; closure := closure j |}.

Definition set_file_name (field name : string) (j : Job) : Job :=
  {| id := id j; _tmp_id := _tmp_id j; _tmp_files := _tmp_files j;
     file_names := <[field := name]> (file_names j); identifier := identifier j;
     timestamp := timestamp j; closure := closure j |}.

Definition set_timestamp (v : option Z) (j : Job) : Job :=
  {| id := id j; _tmp_id := _tmp_id j; _tmp_files := _tmp_files j;
     file_names := file_names j; identifier := identifier j;
     timestamp := v; closure := closure j |}.

Definition set_closure (v : option Z) (j : Job) : Job :=
  {| id := id j; _tmp_id := _tmp_id j; _tmp_files := _tmp_files j;
     file_names := file_names j; identifier := identifier j;
     timestamp := timestamp j; closure := v |}.

(** ** The manager *)

(** [JobWithRequiredUserFilesManager.contribute_to_class(model, name)]: runs
    once per model class, when the class is built. *)
Definition contribute_to_class (draw : Z) (model : JobClass) : JobClass :=
  {| __name__ := __name__ model;
     cls_job_root := cls_job_root model;
     upload_to_results := upload_to_results model;
     upload_to_data := Some (default UNone (upload_to_data model));
     required_user_files := Some (default [] (required_user_files model));
     cls_tmp_id := Some (randrange (10 ^ 6) (10 ^ 7) draw);
     post_save_connected := true;
     file_fields := file_fields model |}.

(** Constructing an instance of a model: nothing about the temporary identity
    is stored on the instance. *)
Definition new_job (ident : string) (uploads : gmap string string) : Job :=
  {| id := None; _tmp_id := None; _tmp_files := None;
     file_names := uploads; identifier := ident;
     timestamp := None; closure := None |}.

(** ** Promotion of the required files: [move_to_data] *)

(** [list.remove(x)]: drops the first occurrence, [ValueError] when absent. *)
Fixpoint list_remove (x : string) (l : list string) : option (list string) :=
  match l with
  | [] => None
  | y :: l' =>
      if String.eqb x y then Some l'
      else match list_remove x l' with
           | Some r => Some (y :: r)
           | None => None
           end
  end.

Definition missing_message (field : string) : string :=
  field +:+ " is indicated as required, but no file could be found".

(** The state a receiver works on, and what it leaves behind: the mutated
    instance and file system, and the exception if one was raised. *)
Definition Outcome : Type := Job * FS * option exn.

Section Promotion.

Variable settings : Settings.
Variable get_alternative_name : FS -> string -> string.

(** One turn of the loop of [move_to_data].  File fields hold the storage
    name of an upload already written to storage; an empty name is a field
    without file. *)
Definition promote_field (c : JobClass) (j : Job) (fs : FS) (field : string)
  : Outcome :=
  match file_fields c !! field with
  | None => (j, fs, Some (AttributeError field))
  | Some u =>
      let old_filename := default EmptyString (file_names j !! field) in
      if is_empty old_filename
      then (j, fs, Some (FileNotFoundError (missing_message field)))
      else
        match upload_to settings u c j (os_path_basename old_filename) with
        | Raise e => (j, fs, Some e)
        | OK new_filename =>
            match storage_save get_alternative_name fs new_filename old_filename with
            | Raise e => (j, fs, Some e)
            | OK fs1 =>
                let j1 := set_file_name field new_filename j in
                let fs2 := storage_delete fs1 old_filename in
                match _tmp_files j1 with
                | None => (j1, fs2, Some (AttributeError "_tmp_files"))
                | Some pending =>
                    match list_remove field pending with
                    | None => (j1, fs2, Some ValueError)
                    | Some pending' =>
                        (set_tmp_files (Some pending') j1, fs2, None)
                    end
                end
            end
        end
  end.

Fixpoint promote (c : JobClass) (fields : list string) (j : Job) (fs : FS)
  : Outcome :=
  match fields with
  | [] => (j, fs, None)
  | field :: rest =>
      match promote_field c j fs field with
      | (j', fs', None) => promote c rest j' fs'
      | failed => failed
      end
  end.

Definition move_to_data (c : JobClass) (created : bool) (j : Job) (fs : FS)
  : Outcome :=
  match required_user_files c with
  | None => (j, fs, Some (AttributeError "required_user_files"))
  | Some required =>
      if created then
        let j0 := set_tmp_files (Some required) j in
        match promote c required j0 fs with
        | (j1, fs1, None) =>
            match root_job settings c j1 with
            | Raise e => (j1, fs1, Some e)
            | OK root =>
                match rmtree fs1 root with
                | Raise e => (j1, fs1, Some e)
                | OK fs2 => (set_tmp_id (Some 0) j1, fs2, None)
                end
            end
        | failed => failed
        end
      else (j, fs, None)
  end.

End Promotion.

(** ** Time

    A [datetime] is its number of microseconds since 1970-01-01T00:00 and a
    [timedelta] a number of microseconds.  [datetime] covers the years 1 to
    9999; adding a [timedelta] that leaves the range is an [OverflowError]. *)

Definition datetime_min : Z := -62135596800000000.
Definition datetime_max : Z := 253402300799999999.

Definition add_timedelta (t delta : Z) : Res Z :=
  let r := t + delta in
  if (datetime_min <=? r) && (r <=? datetime_max) then OK r
  else Raise OverflowError.

(** Year, month and day of a day number counted from 1970-01-01 (proleptic
    Gregorian calendar). *)
Definition civil_from_days (days : Z) : Z * Z * Z :=
  let z := days + 719468 in
  let era := z / 146097 in
  let doe := z - era * 146097 in
  let yoe := (doe - doe / 1460 + doe / 36524 - doe / 146096) / 365 in
  let doy := doe - (365 * yoe + yoe / 4 - yoe / 100) in
  let mp := (5 * doy + 2) / 153 in
  let d := doy - (153 * mp + 2) / 5 + 1 in
  let m := if mp <? 10 then mp + 3 else mp - 9 in
  let y := yoe + era * 400 + (if m <=? 2 then 1 else 0) in
  (y, m, d).

Definition digit (n : Z) : ascii := ascii_of_nat (48 + Z.to_nat (n mod 10)).

(** A number printed on two digits, as [%y], [%m], [%d], [%H] and [%M] do. *)
Definition two_digits (n : Z) : string :=
  String (digit (n / 10)) (String (digit n) EmptyString).

(** [t.strftime("%y%m%d%H%M")]. *)
Definition strftime_yymmddHHMM (t : Z) : string :=
  let minutes := t / 60000000 in
  let days := minutes / 1440 in
  let minute_of_day := minutes mod 1440 in
  let '(y, m, d) := civil_from_days days in
  two_digits (y mod 100) +:+ two_digits m +:+ two_digits d
    +:+ two_digits (minute_of_day / 60) +:+ two_digits (minute_of_day mod 60).

(** ** [AJob.slug_default] *)

Definition SLUG_MAX_LENGTH : nat := 32.
Definition SLUG_RND_LENGTH : nat := 6.

(** The seed of the slug: the identifier cut to [SLUG_RND_LENGTH] characters,
    or the first character of the class name. *)
Definition slug_seed (c : JobClass) (j : Job) : Res string :=
  if is_empty (identifier j) then
    match __name__ c with
    | String ch _ => OK (String ch EmptyString)
    | EmptyString => Raise IndexError
    end
  else
    OK (String.substring 0
          (Nat.min (String.length (identifier j)) SLUG_RND_LENGTH)
          (identifier j)).

(** The last step of [slug_default]: a slug longer than [SLUG_MAX_LENGTH] is
    cut and given a random numeric suffix. *)
Definition slug_fit (draw : Z) (slug : string) : string :=
  if Nat.ltb SLUG_MAX_LENGTH (String.length slug) then
    String.substring 0 (SLUG_MAX_LENGTH - SLUG_RND_LENGTH) slug
      +:+ str (randrange (10 ^ (Z.of_nat SLUG_RND_LENGTH - 1))
                         (10 ^ Z.of_nat SLUG_RND_LENGTH) draw)
  else slug.

Definition slug_default (draw : Z) (c : JobClass) (j : Job) : Res string :=
  let! seed := slug_seed c j in
  match timestamp j with
  | None => Raise (AttributeError "strftime")
  | Some t => OK (slug_fit draw (seed +:+ strftime_yymmddHHMM t))
  end.

(** ** The persistence layer and [AJob.save] *)

(** The table of a model: the key the next insert gets, and the keys in use. *)
Record DB : Type := {
  next_id : Z;
  rows : gset Z
}.

Section Save.

Variable settings : Settings.
Variable get_alternative_name : FS -> string -> string.

(** [models.Model.save]: an instance without key, or with a key that has no
    row, is inserted (a key is assigned when missing, and [auto_now_add]
    stamps [timestamp]); otherwise the row is updated.  The [post_save] signal
    then runs [move_to_data] when the manager connected it. *)
Definition model_save (now : Z) (c : JobClass) (j : Job) (fs : FS) (db : DB)
  : Outcome * DB :=
  let '(j1, db1, created) :=
    match id j with
    | None =>
        (set_timestamp (Some now) (set_id (Some (next_id db)) j),
         {| next_id := next_id db + 1; rows := {[ next_id db ]} ∪ rows db |},
         true)
    | Some n =>
        if decide (n ∈ rows db) then (j, db, false)
        else (set_timestamp (Some now) j,
              {| next_id := next_id db; rows := {[ n ]} ∪ rows db |}, true)
    end in
  if post_save_connected c
  then (move_to_data settings get_alternative_name c created j1 fs, db1)
  else ((j1, fs, None), db1).

(** [AJob.save(results_exist_ok=...)]. *)
Definition save (now : Z) (results_exist_ok : bool) (c : JobClass)
    (j : Job) (fs : FS) (db : DB) : Outcome * DB :=
  let created := negb (truthy_int (id j)) in
  match model_save now c j fs db with
  | ((j1, fs1, None), db1) =>
      if created then
        match timestamp j1 with
        | None => ((j1, fs1, Some TypeError), db1)
        | Some t =>
            match add_timedelta t (TTL settings) with
            | Raise e => ((j1, fs1, Some e), db1)
            | OK cl =>
                let j2 := set_closure (Some cl) j1 in
                match model_save now c j2 fs1 db1 with
                | ((j3, fs3, None), db3) =>
                    match job_results settings (AJobInst c j3) EmptyString with
                    | Raise e => ((j3, fs3, Some e), db3)
                    | OK results =>
                        match makedirs fs3
                                (os_path_join (MEDIA_ROOT settings) results)
                                results_exist_ok with
                        | Raise e => ((j3, fs3, Some e), db3)
                        | OK fs4 => ((j3, fs4, None), db3)
                        end
                    end
                | failed => failed
                end
            end
        end
      else ((j1, fs1, None), db1)
  | failed => failed
  end.

End Save.

(** ** The enumerations and the identifier pattern of [AJob] *)

(** [AJob.EStates] and [AJob.EStatuses], both decorated with [@unique]. *)
Inductive EStates : Type := CREATED | SUBMITTED | RUNNING | COMPLETED.

Inductive EStatuses : Type := ACTIVE | SUCCESS | FAILURE.

Definition EStates_value (s : EStates) : Z :=
  match s with
  | CREATED => 0
  | SUBMITTED => 100
  | RUNNING => 200
  | COMPLETED => 300
  end.

Definition EStates_label (s : EStates) : string :=
  match s with
  | CREATED => "Created"
  | SUBMITTED => "Submitted"
  | RUNNING => "Running"
  | COMPLETED => "Completed"
  end.

Definition EStatuses_value (s : EStatuses) : Z :=
  match s with
  | ACTIVE => 0
  | SUCCESS => 10
  | FAILURE => 20
  end.

Definition EStatuses_label (s : EStatuses) : string :=
  match s with
  | ACTIVE => "Active"
  | SUCCESS => "Succeeded"
  | FAILURE => "Failed"
  end.

Definition IDENTIFIER_MIN_LENGTH : nat := 0.
Definition IDENTIFIER_MAX_LENGTH : nat := 32.

(** [IDENTIFIER_ALLOWED_CHARS], the character class [[a-zA-Z0-9]]. *)
Definition IDENTIFIER_ALLOWED_CHARS (ch : ascii) : bool :=
  let k := nat_of_ascii ch in
  (Nat.leb 97 k && Nat.leb k 122) || (Nat.leb 65 k && Nat.leb k 90)
  || (Nat.leb 48 k && Nat.leb k 57).

(** The number of leading characters of [s] in the class. *)
Fixpoint class_run (allowed : ascii -> bool) (s : string) : nat :=
  match s with
  | EmptyString => O
  | String ch s' => if allowed ch then S (class_run allowed s') else O
  end.

(** [re.compile("C{m,}").search(s)] for a character class [C]: is there a
    position of [s], its end included, from which at least [m] characters
    of the class follow. *)
Fixpoint class_min_search (allowed : ascii -> bool) (m : nat) (s : string) : bool :=
  Nat.leb m (class_run allowed s)
  || match s with
     | EmptyString => false
     | String _ s' => class_min_search allowed m s'
     end.

(** [IDENTIFIER_REGEX.search(value)], the test [RegexValidator] applies to
    [identifier]: the pattern is
    ["{}{{{},}}".format(IDENTIFIER_ALLOWED_CHARS, IDENTIFIER_MIN_LENGTH)]. *)
Definition IDENTIFIER_REGEX_search (value : string) : bool :=
  class_min_search IDENTIFIER_ALLOWED_CHARS IDENTIFIER_MIN_LENGTH value.

(** * Vocabulary of the statements and sample data *)

(** ** Paths and job states *)

(** [str.endswith]. *)
Definition endswith (p t : string) : bool :=
  String.eqb
    (String.substring (String.length p - String.length t) (String.length t) p) t.

(** The temporary tail [tmp/<temporary_id>]. *)
Definition tmp_tail (t : Z) : string :=
  os_path_join TEMPORARY_JOB_FOLDER (str t).

(** ** Sample data, used to run the definitions on concrete input *)

Definition sample_settings : Settings :=
  {| APP_ROOT := "/srv/app"; TTL := 3600000000; MEDIA_ROOT := "/srv/media" |}.

(** A concrete model before the manager touches it: two required uploads,
    both stored through [job_data]. *)
Definition sample_model : JobClass :=
  {| __name__ := "MyJob"; cls_job_root := RNone; upload_to_results := UNone;
     upload_to_data := None; required_user_files := Some ["f"; "g"];
     cls_tmp_id := None; post_save_connected := false;
     file_fields := {[ "f" := ToJobData; "g" := ToJobData ]} |}.

Definition sample_class : JobClass := contribute_to_class 234567 sample_model.

(** The same model with a callable [job_root]. *)
Definition callable_root_class : JobClass :=
  {| __name__ := "MyJob"; cls_job_root := RCallable (fun _ => "custom/root");
     upload_to_results := UNone; upload_to_data := Some UNone;
     required_user_files := Some ["f"]; cls_tmp_id := Some 1234567;
     post_save_connected := true;
     file_fields := {[ "f" := ToJobData ]} |}.

Definition sample_job : Job :=
  new_job "abcdef123"
    {[ "f" := "/srv/app/myjob/tmp/1234567/data/a.txt";
       "g" := "/srv/app/myjob/tmp/1234567/data/b.txt" ]}.

(** [callable(instance.job_root)] is false. *)
Definition not_callable (c : JobClass) : Prop :=
  forall f, cls_job_root c <> RCallable f.

(** [not instance.id]. *)
Definition id_unset (j : Job) : Prop := id j = None \/ id j = Some 0.

(** [not getattr(instance, '_tmp_files', None)]. *)
Definition pending_empty (j : Job) : Prop :=
  _tmp_files j = None \/ _tmp_files j = Some [].

(** A job of [sample_class] once the creation save is over. *)
Definition promoted_job : Job :=
  {| id := Some 7; _tmp_id := Some 0; _tmp_files := Some [];
     file_names := {[ "f" := "/srv/app/myjob/7/data/a.txt";
                      "g" := "/srv/app/myjob/7/data/b.txt" ]};
     identifier := "abcdef123";
     timestamp := Some 1682937000000000; closure := Some 1682940600000000 |}.

(** The tail condition in the words of the specification: the id is unset,
    or it is set and the pending list is still non-empty. *)
Definition spec_tmp_condition (j : Job) : Prop :=
  id_unset j \/ (~ id_unset j /\ ~ pending_empty j).

(** A job of [sample_class] in the middle of promotion: id assigned, one
    required file still pending. *)
Definition promoting_job : Job :=
  {| id := Some 7; _tmp_id := None; _tmp_files := Some ["g"];
     file_names := {[ "f" := "/srv/app/myjob/7/data/a.txt";
                      "g" := "/srv/app/myjob/tmp/1234567/data/b.txt" ]};
     identifier := "abcdef123";
     timestamp := Some 1682937000000000; closure := None |}.

(** A model that aliases both overrides to the built-in [job_data]. *)
Definition aliased_class : JobClass :=
  {| __name__ := "MyJob"; cls_job_root := RNone;
     upload_to_results := UCallable (CodeOf BJobData);
     upload_to_data := Some (UCallable (CodeOf BJobData));
     required_user_files := Some []; cls_tmp_id := Some 1234567;
     post_save_connected := true; file_fields := ∅ |}.

(** The identity an instance would get from a draw made at its own
    construction, in the words of the specification. *)
Definition spec_instance_tmp_id (draw : Z) : Z := randrange (10 ^ 6) (10 ^ 7) draw.

(** [sample_job] with the timestamp 2023-05-01T10:30. *)
Definition stamped_job : Job :=
  set_timestamp (Some 1682937000000000) sample_job.

(** Promotion only writes [_tmp_id], [_tmp_files] and the file fields. *)
Definition same_row (j j' : Job) : Prop :=
  id j' = id j /\ timestamp j' = timestamp j /\ closure j' = closure j
  /\ identifier j' = identifier j.

(** A storage holding the two uploads of [sample_job] in the temporary
    folder, an empty table, and a naming of alternatives. *)
Definition sample_alt (fs : FS) (name : string) : string := name +:+ "_1".

Definition sample_fs : FS :=
  {| fs_files := {[ "/srv/app/myjob/tmp/1234567/data/a.txt" := [Byte.x61];
                    "/srv/app/myjob/tmp/1234567/data/b.txt" := [Byte.x62] ]};
     fs_dirs := {[ "/srv/app/myjob/tmp/1234567";
                   "/srv/app/myjob/tmp/1234567/data" ]} |}.

Definition sample_db : DB := {| next_id := 7; rows := ∅ |}.

Definition sample_now : Z := 1682937000000000.

Definition sample_saved : Outcome * DB :=
  save sample_settings sample_alt sample_now false
    sample_class sample_job sample_fs sample_db.

(** [sample_job] right after its row was inserted, as [move_to_data] receives
    it, with the uploads and the destinations of its two required fields. *)
Definition inserted_job : Job :=
  set_timestamp (Some sample_now) (set_id (Some 7) sample_job).

Definition sample_old (f : string) : string :=
  default EmptyString (file_names sample_job !! f).

Definition sample_dest (f : string) : string :=
  if String.eqb f "f" then "/srv/app/myjob/7/data/a.txt"
  else "/srv/app/myjob/7/data/b.txt".

(** A promoted-to-be job of [callable_root_class], whose upload sits in the
    folder the callable names. *)
Definition callable_root_job : Job :=
  {| id := Some 7; _tmp_id := None; _tmp_files := None;
     file_names := {[ "f" := "custom/root/data/a.txt" ]};
     identifier := "abcdef123";
     timestamp := Some sample_now; closure := None |}.

Definition callable_root_fs : FS :=
  {| fs_files := {[ "custom/root/data/a.txt" := [Byte.x61] ]};
     fs_dirs := {[ "custom/root"; "custom/root/data" ]} |}.

Definition callable_root_moved : Outcome :=
  move_to_data sample_settings sample_alt callable_root_class true
    callable_root_job callable_root_fs.

(** A job of [sample_class] constructed without the upload of ["g"]. *)
Definition incomplete_job : Job :=
  new_job "abcdef123" {[ "f" := "/srv/app/myjob/tmp/1234567/data/a.txt" ]}.

Definition incomplete_promoted : Outcome :=
  promote sample_settings sample_alt sample_class ["f"]
    (set_tmp_files (Some ["f"; "g"])
       (set_timestamp (Some sample_now) (set_id (Some 7) incomplete_job)))
    sample_fs.

(** ** Overrides that leave the default subfolder in place *)

(** The [upload_to_*] values for which [_user_path] yields [None]: [None]
    itself, an empty prefix, and a callable with the code of a built-in path
    function. *)
Definition keeps_default (a : UploadAttr) : bool :=
  match a with
  | UNone => true
  | UPrefix p => is_empty p
  | UCallable (CodeOf _) => true
  | UCallable (UserFn _) => false
  end.

(** The [upload_to_*] values that are not a function of the user's own. *)
Definition no_user_function (a : UploadAttr) : bool :=
  match a with
  | UCallable (UserFn _) => false
  | _ => true
  end.

(** An instance as a query returns it: the row fields are set, nothing was
    stored on the instance by the manager or by promotion. *)
Definition reloaded (j : Job) : Prop :=
  _tmp_id j = None /\ _tmp_files j = None.

(** A model with the manager attached and an empty list of required files. *)
Definition bare_model : JobClass :=
  {| __name__ := "Bare"; cls_job_root := RNone; upload_to_results := UNone;
     upload_to_data := None; required_user_files := None;
     cls_tmp_id := None; post_save_connected := false;
     file_fields := ∅ |}.

Definition bare_class : JobClass := contribute_to_class 0 bare_model.

Definition empty_fs : FS := {| fs_files := ∅; fs_dirs := ∅ |}.

(** [sample_fs] with the results folder of job 7 already there. *)
Definition sample_fs_with_results : FS :=
  {| fs_files := fs_files sample_fs;
     fs_dirs := {[ "/srv/app/myjob/7/results" ]} ∪ fs_dirs sample_fs |}.

(** What the first write of the creation save of [sample_job] leaves. *)
Definition sample_first_write : Outcome * DB :=
  model_save sample_settings sample_alt sample_now sample_class sample_job
    sample_fs_with_results sample_db.


(** ** The state of the promotion loop *)

Section PromotionState.

Variable st : Settings.
Variable c : JobClass.

(** The key of the job, the value of its instance attribute [_tmp_id], and
    for each field the storage name of its upload and the name it is
    promoted to. *)
Variable n : Z.
Variable tid : option Z.
Variable old dest : string -> string.

(** The path function of every field of [l] yields [dest] while the job has
    its key and required files are pending. *)
Definition stable (l : list string) : Prop :=
  forall f u j', f ∈ l -> file_fields c !! f = Some u ->
    id j' = Some n -> _tmp_id j' = tid -> truthy_list (_tmp_files j') = true ->
    upload_to st u c j' (os_path_basename (old f)) = OK (dest f).

(** The fields of [l] are declared file fields holding an upload that is in
    storage, and their destinations are free. *)
Definition ready (l : list string) (j : Job) (fs : FS) : Prop :=
  id j = Some n /\ _tmp_id j = tid
  /\ forall f, f ∈ l ->
       is_Some (file_fields c !! f)
       /\ file_names j !! f = Some (old f)
       /\ is_empty (old f) = false
       /\ is_Some (fs_files fs !! old f)
       /\ fs_files fs !! dest f = None.

(** What a successful run over [l] leaves. *)
Definition promoted (l : list string) (j : Job) (fs : FS) (j' : Job) (fs' : FS)
  : Prop :=
  id j' = Some n /\ _tmp_id j' = tid
  /\ (forall f, f ∈ l ->
        file_names j' !! f = Some (dest f)
        /\ fs_files fs' !! dest f = fs_files fs !! old f
        /\ fs_files fs' !! old f = None)
  /\ (forall f, f ∉ l -> file_names j' !! f = file_names j !! f)
  /\ (forall p, p ∉ old <$> l -> p ∉ dest <$> l ->
        fs_files fs' !! p = fs_files fs !! p)
  /\ fs_dirs fs ⊆ fs_dirs fs'.

End PromotionState.

(** * Properties *)

(** ** Strings and paths *)

Lemma substring_whole (s : string) : String.substring 0 (String.length s) s = s.
Proof. induction s as [|ch s IH]; simpl; [reflexivity | now rewrite IH]. Qed.

Lemma length_append (a b : string) :
  String.length (a +:+ b) = (String.length a + String.length b)%nat.
Proof. induction a as [|ch a IH]; simpl; [reflexivity | now rewrite IH]. Qed.

Lemma endswith_append (a b : string) : endswith (a +:+ b) b = true.
Proof.
  unfold endswith. apply String.eqb_eq.
  induction a as [|ch a IH]; simpl.
  - rewrite Nat.sub_diag. apply substring_whole.
  - rewrite length_append in *.
    replace (S (String.length a + String.length b) - String.length b)%nat
      with (S (String.length a + String.length b - String.length b)) by lia.
    simpl. exact IH.
Qed.

Lemma append_cons (ch : ascii) (a b : string) :
  String ch a +:+ b = String ch (a +:+ b).
Proof. reflexivity. Qed.

Lemma append_assoc (a b c : string) : (a +:+ b) +:+ c = a +:+ (b +:+ c).
Proof.
  induction a as [|ch a IH]; [reflexivity|].
  rewrite !append_cons. f_equal. exact IH.
Qed.

Lemma endswith_join (h t : string) :
  startswith_sep t = false -> endswith (os_path_join h t) t = true.
Proof.
  intros Ht. unfold os_path_join. rewrite Ht.
  destruct (is_empty h || endswith_sep h).
  - apply endswith_append.
  - replace (h +:+ String sep t) with ((h +:+ String sep EmptyString) +:+ t)
      by (rewrite append_assoc; reflexivity).
    apply endswith_append.
Qed.

Lemma append_inv_head (a b b' : string) : a +:+ b = a +:+ b' -> b = b'.
Proof. induction a as [|ch a IH]; simpl; intros H; [exact H | injection H; auto]. Qed.

(** With the same head, different relative tails give different paths. *)
Lemma join_inj_tail (h t t' : string) :
  startswith_sep t = false -> startswith_sep t' = false ->
  os_path_join h t = os_path_join h t' -> t = t'.
Proof.
  intros Ht Ht'. unfold os_path_join. rewrite Ht, Ht'.
  destruct (is_empty h || endswith_sep h); intros H.
  - exact (append_inv_head _ _ _ H).
  - apply append_inv_head in H. now injection H.
Qed.

Lemma pretty_N_char_not_sep (x : N) : Ascii.eqb (pretty_N_char x) sep = false.
Proof. unfold pretty_N_char. repeat case_match; reflexivity. Qed.

Lemma pretty_N_go_startswith (x : N) (s : string) :
  startswith_sep s = false -> startswith_sep (pretty_N_go x s) = false.
Proof.
  revert s. induction (N.lt_wf_0 x) as [x _ IH]. intros s Hs.
  destruct (decide (0 < x)%N) as [Hx|Hx].
  - rewrite pretty_N_go_step by exact Hx.
    apply IH; [apply N.div_lt; lia | simpl; apply pretty_N_char_not_sep].
  - replace x with 0%N by lia. rewrite pretty_N_go_0. exact Hs.
Qed.

Lemma pretty_N_startswith (x : N) : startswith_sep (pretty x) = false.
Proof.
  unfold pretty, pretty_N. destruct (decide (x = 0%N)); [reflexivity|].
  now apply pretty_N_go_startswith.
Qed.

(** The decimal rendering of an integer is a relative path component. *)
Lemma str_startswith (n : Z) : startswith_sep (str n) = false.
Proof.
  unfold str, pretty, pretty_Z. destruct n as [|p|p]; try reflexivity.
  apply (pretty_N_startswith (Npos p)).
Qed.

Lemma pretty_N_go_first (x : N) (s : string) (ch : ascii) :
  (forall d, ch <> pretty_N_char d) ->
  (forall s', s <> String ch s') ->
  forall s', pretty_N_go x s <> String ch s'.
Proof.
  intros Hch. revert s. induction (N.lt_wf_0 x) as [x _ IH]. intros s Hs s'.
  destruct (decide (0 < x)%N) as [Hx|Hx].
  - rewrite pretty_N_go_step by exact Hx.
    apply IH; [apply N.div_lt; lia|].
    intros s'' H. injection H as H _. exact (Hch _ (eq_sym H)).
  - replace x with 0%N by lia. rewrite pretty_N_go_0. apply Hs.
Qed.

(** No integer is rendered with a leading [t]. *)
Lemma str_not_t (n : Z) (s' : string) : str n <> String "t" s'.
Proof.
  assert (Hd : forall d, "t"%char <> pretty_N_char d).
  { intros d. unfold pretty_N_char. repeat case_match; discriminate. }
  assert (HN : forall x : N, pretty x <> String "t" s').
  { intros x. unfold pretty, pretty_N. destruct (decide (x = 0%N)); [discriminate|].
    apply pretty_N_go_first; [exact Hd | discriminate]. }
  unfold str, pretty, pretty_Z. destruct n as [|p|p]; try discriminate.
  apply (HN (Npos p)).
Qed.

Lemma tmp_tail_eq (t : Z) : tmp_tail t = "tmp/" +:+ str t.
Proof.
  unfold tmp_tail, os_path_join. rewrite str_startswith. reflexivity.
Qed.

Lemma tmp_tail_startswith (t : Z) : startswith_sep (tmp_tail t) = false.
Proof. rewrite tmp_tail_eq. reflexivity. Qed.

Lemma tmp_tail_not_str (t n : Z) : tmp_tail t <> str n.
Proof.
  rewrite tmp_tail_eq. intros H. symmetry in H. exact (str_not_t _ _ H).
Qed.

(** ** The tail chosen by [root_job] *)

Lemma truthy_id_unset (j : Job) : truthy_int (id j) = false <-> id_unset j.
Proof.
  unfold id_unset, truthy_int. destruct (id j) as [n|].
  - destruct (Z.eqb_spec n 0); simpl; split; intros H; try discriminate.
    + right. now subst.
    + reflexivity.
    + destruct H as [H|H]; [discriminate | congruence].
  - split; auto.
Qed.

Lemma truthy_list_pending (j : Job) :
  truthy_list (_tmp_files j) = false <-> pending_empty j.
Proof.
  unfold pending_empty, truthy_list. destruct (_tmp_files j) as [[|x l]|];
    split; intros H; auto; try discriminate.
  destruct H as [H|H]; discriminate.
Qed.

Lemma uses_tmp_spec (c : JobClass) (j : Job) (t : Z) :
  getattr_tmp_id c j = Some t ->
  uses_tmp c j = true <-> id_unset j \/ (t <> 0 /\ pending_empty j).
Proof.
  intros Ht. unfold uses_tmp. rewrite Ht.
  rewrite <- truthy_id_unset, <- truthy_list_pending. simpl.
  destruct (truthy_int (id j)), (truthy_list (_tmp_files j)),
    (Z.eqb_spec t 0); simpl; split; intros H; auto; try discriminate;
    destruct H as [H|[H1 H2]]; try discriminate; congruence.
Qed.

Lemma root_job_not_callable (st : Settings) (c : JobClass) (j : Job) :
  not_callable c ->
  root_job st c j =
    if uses_tmp c j then
      match getattr_tmp_id c j with
      | None => Raise (AssertionError manager_assertion)
      | Some t => OK (os_path_join (root_head st c) (tmp_tail t))
      end
    else OK (os_path_join (root_head st c) (str_opt_int (id j))).
Proof.
  intros Hc. unfold root_job, tmp_tail.
  destruct (cls_job_root c) eqn:E; try reflexivity.
  exfalso. exact (Hc _ E).
Qed.

Lemma OK_inj {A : Type} (a b : A) : OK a = OK b -> a = b.
Proof. now injection 1. Qed.

(** C7 (amended): with an unset id, a temporary identity and no callable
    [job_root], [root_job] returns the head joined with [tmp/<temporary_id>],
    and that path ends with this tail. *)
Theorem root_job_unset_id_tmp_tail (st : Settings) (c : JobClass) (j : Job) (t : Z) :
  not_callable c -> id_unset j -> getattr_tmp_id c j = Some t ->
  root_job st c j = OK (os_path_join (root_head st c) (tmp_tail t))
  /\ endswith (os_path_join (root_head st c) (tmp_tail t)) (tmp_tail t) = true.
Proof.
  intros Hc Hid Ht. split.
  - rewrite root_job_not_callable by exact Hc.
    assert (Hu : uses_tmp c j = true) by (apply (uses_tmp_spec c j t Ht); auto).
    now rewrite Hu, Ht.
  - apply endswith_join, tmp_tail_startswith.
Qed.

Lemma root_job_unset_id_tmp_tail_witness :
  root_job sample_settings sample_class sample_job
    = OK "/srv/app/myjob/tmp/1234567"
  /\ endswith "/srv/app/myjob/tmp/1234567" "tmp/1234567" = true.
Proof.
  apply (root_job_unset_id_tmp_tail sample_settings sample_class sample_job 1234567).
  - intros f. discriminate.
  - left. reflexivity.
  - reflexivity.
Defined.

(** C7 as stated fails: a callable [job_root] is returned as the whole path
    and no tail is appended, whatever the id. *)
Lemma root_job_unset_id_callable_counterexample :
  id (new_job "" ∅) = None
  /\ getattr_tmp_id callable_root_class (new_job "" ∅) = Some 1234567
  /\ root_job sample_settings callable_root_class (new_job "" ∅) = OK "custom/root"
  /\ endswith "custom/root" (tmp_tail 1234567) = false.
Proof. repeat split. Qed.

(** While required files are pending, paths already resolve under the id:
    this is where [move_to_data] gets the new file names from. *)
Lemma root_job_pending (st : Settings) (c : JobClass) (j : Job) (n : Z) :
  not_callable c -> id j = Some n -> n <> 0 ->
  truthy_list (_tmp_files j) = true ->
  root_job st c j = OK (os_path_join (root_head st c) (str n)).
Proof.
  intros Hc Hid Hn Hpend.
  assert (Hu : uses_tmp c j = false).
  { unfold uses_tmp. rewrite Hid, Hpend. simpl.
    destruct (Z.eqb_spec n 0); [contradiction|].
    simpl. now rewrite andb_false_r. }
  rewrite root_job_not_callable by exact Hc. now rewrite Hu, Hid.
Qed.

(** With the id set and [_tmp_id] at 0 on the instance, the tail is the id. *)
Lemma root_job_exhausted (st : Settings) (c : JobClass) (j : Job) (n : Z) :
  not_callable c -> id j = Some n -> n <> 0 -> _tmp_id j = Some 0 ->
  root_job st c j = OK (os_path_join (root_head st c) (str n)).
Proof.
  intros Hc Hid Hn Htmp.
  assert (Hu : uses_tmp c j = false).
  { unfold uses_tmp, getattr_tmp_id. rewrite Hid, Htmp. simpl.
    destruct (Z.eqb_spec n 0); [contradiction | reflexivity]. }
  rewrite root_job_not_callable by exact Hc. now rewrite Hu, Hid.
Qed.

(** C8 (amended): with the id set, the temporary identity exhausted
    ([_tmp_id] set to 0 on the instance) and no callable [job_root], the tail
    is the decimal rendering of the id and no temporary tail. *)
Theorem root_job_promoted_id_tail (st : Settings) (c : JobClass) (j : Job) (n : Z) :
  not_callable c -> id j = Some n -> n <> 0 -> _tmp_id j = Some 0 ->
  root_job st c j = OK (os_path_join (root_head st c) (str n))
  /\ endswith (os_path_join (root_head st c) (str n)) (str n) = true
  /\ forall t, root_job st c j <> OK (os_path_join (root_head st c) (tmp_tail t)).
Proof.
  intros Hc Hid Hn Htmp.
  pose proof (root_job_exhausted st c j n Hc Hid Hn Htmp) as Hr.
  repeat split.
  - exact Hr.
  - apply endswith_join, str_startswith.
  - intros t. rewrite Hr. intros H. apply OK_inj in H.
    apply join_inj_tail in H;
      [| apply str_startswith | apply tmp_tail_startswith].
    exact (tmp_tail_not_str t n (eq_sym H)).
Qed.

Lemma root_job_promoted_id_tail_witness :
  root_job sample_settings sample_class promoted_job = OK "/srv/app/myjob/7"
  /\ endswith "/srv/app/myjob/7" "7" = true
  /\ forall t, root_job sample_settings sample_class promoted_job
               <> OK (os_path_join "/srv/app/myjob" (tmp_tail t)).
Proof.
  apply (root_job_promoted_id_tail sample_settings sample_class promoted_job 7).
  - intros f. discriminate.
  - reflexivity.
  - lia.
  - reflexivity.
Defined.

(** C8 as stated fails: with a callable [job_root] the path of a promoted job
    is what the callable returns, and does not end with the id. *)
Lemma root_job_promoted_callable_counterexample :
  id promoted_job = Some 7 /\ _tmp_id promoted_job = Some 0
  /\ root_job sample_settings callable_root_class promoted_job = OK "custom/root"
  /\ endswith "custom/root" (str 7) = false.
Proof. repeat split. Qed.

(** C1 as stated fails: while a required file is still pending the tail is
    already the id, not the temporary one. *)
Lemma root_job_pending_counterexample :
  ~ (root_job sample_settings sample_class promoting_job
       = OK (os_path_join (root_head sample_settings sample_class) (tmp_tail 1234567))
     <-> spec_tmp_condition promoting_job).
Proof.
  intros [_ H].
  assert (Hs : spec_tmp_condition promoting_job).
  { right. split.
    - intros [E|E]; discriminate.
    - intros [E|E]; discriminate. }
  specialize (H Hs). vm_compute in H. discriminate.
Qed.

(** C1 (amended): for a job with a temporary identity and no callable
    [job_root], the tail is [tmp/<temporary_id>] exactly when the id is unset,
    or the temporary identity is not exhausted and the pending list is absent
    or empty; otherwise the tail is the id. *)
Theorem root_job_tail_iff (st : Settings) (c : JobClass) (j : Job) (t : Z) :
  not_callable c -> getattr_tmp_id c j = Some t ->
  (root_job st c j = OK (os_path_join (root_head st c) (tmp_tail t))
   <-> id_unset j \/ (t <> 0 /\ pending_empty j))
  /\ (~ (id_unset j \/ (t <> 0 /\ pending_empty j)) ->
      exists n, id j = Some n /\ n <> 0
        /\ root_job st c j = OK (os_path_join (root_head st c) (str n))).
Proof.
  intros Hc Ht.
  pose proof (uses_tmp_spec c j t Ht) as Hspec.
  rewrite root_job_not_callable by exact Hc. rewrite Ht.
  destruct (uses_tmp c j) eqn:Hu.
  - split; [split; [intros _; now apply Hspec | reflexivity]|].
    intros Hn. exfalso. apply Hn. now apply Hspec.
  - assert (Hno : ~ (id_unset j \/ (t <> 0 /\ pending_empty j))).
    { intros H. apply Hspec in H. discriminate. }
    assert (Hid : exists n, id j = Some n /\ n <> 0).
    { destruct (id j) as [n|] eqn:E.
      - exists n. split; [reflexivity|]. intros ->.
        apply Hno. left. right. exact E.
      - exfalso. apply Hno. left. left. exact E. }
    destruct Hid as (n & Hid & Hn0). rewrite Hid. simpl. split.
    + split.
      * intros H. apply OK_inj in H.
        apply join_inj_tail in H;
          [| apply str_startswith | apply tmp_tail_startswith].
        exfalso. exact (tmp_tail_not_str t n (eq_sym H)).
      * intros H. contradiction.
    + intros _. exists n. auto.
Qed.

Lemma root_job_tail_iff_witness :
  (root_job sample_settings sample_class promoting_job
     = OK (os_path_join (root_head sample_settings sample_class) (tmp_tail 1234567))
   <-> id_unset promoting_job \/ (1234567 <> 0 /\ pending_empty promoting_job))
  /\ (~ (id_unset promoting_job \/ (1234567 <> 0 /\ pending_empty promoting_job)) ->
      exists n, id promoting_job = Some n /\ n <> 0
        /\ root_job sample_settings sample_class promoting_job
           = OK (os_path_join (root_head sample_settings sample_class) (str n))).
Proof.
  apply (root_job_tail_iff sample_settings sample_class promoting_job 1234567).
  - intros f. discriminate.
  - reflexivity.
Defined.

(** ** The guard of [_user_path] against the built-in path functions *)

(** C9: an override that is the built-in [job_data] or [job_results] is never
    called by [_user_path], whatever calling it would do; [job_data] and
    [job_results] then use the default subfolder, at every recursion depth,
    and never end in [RecursionError]. *)
Theorem builtin_override_not_called (st : Settings) (c : JobClass) (j : Job)
    (b : Builtin) (filename : string) :
  (forall invoke, _user_path invoke (UCallable (CodeOf b)) filename = OK None)
  /\ (upload_to_data c = Some (UCallable (CodeOf b)) ->
      (forall invoke,
          job_data_with st invoke (AJobInst c j) filename
          = let! head := root_job st c j in
            OK (os_path_join head (os_path_join "data" filename)))
      /\ job_data st (AJobInst c j) filename <> Raise RecursionError)
  /\ (upload_to_results c = UCallable (CodeOf b) ->
      (forall invoke,
          job_results_with st invoke (AJobInst c j) filename
          = let! root := root_job st c j in
            OK (os_path_join root (os_path_join "results" filename)))
      /\ job_results st (AJobInst c j) filename <> Raise RecursionError).
Proof.
  assert (Hguard : forall invoke,
             _user_path invoke (UCallable (CodeOf b)) filename = OK None).
  { intros invoke. destruct b; reflexivity. }
  assert (Hroot : forall k : string -> string,
             (let! r := root_job st c j in OK (k r)) <> Raise RecursionError).
  { intros k. unfold root_job.
    destruct (cls_job_root c); simpl;
      try (destruct (uses_tmp c j); [destruct (getattr_tmp_id c j)|]);
      simpl; discriminate. }
  split; [exact Hguard|]. split.
  - intros Hd.
    assert (Heq : forall invoke,
               job_data_with st invoke (AJobInst c j) filename
               = let! head := root_job st c j in
                 OK (os_path_join head (os_path_join "data" filename))).
    { intros invoke. unfold job_data_with. rewrite Hd.
      destruct b, (root_job st c j); reflexivity. }
    split; [exact Heq|]. unfold job_data. rewrite Heq. apply Hroot.
  - intros Hr.
    assert (Heq : forall invoke,
               job_results_with st invoke (AJobInst c j) filename
               = let! root := root_job st c j in
                 OK (os_path_join root (os_path_join "results" filename))).
    { intros invoke. unfold job_results_with. rewrite Hr.
      destruct b, (root_job st c j); reflexivity. }
    split; [exact Heq|]. unfold job_results. rewrite Heq. apply Hroot.
Qed.

Lemma builtin_override_not_called_witness :
  job_data sample_settings (AJobInst aliased_class promoted_job) "a.txt"
    = OK "/srv/app/myjob/7/data/a.txt"
  /\ job_results sample_settings (AJobInst aliased_class promoted_job) "a.txt"
    = OK "/srv/app/myjob/7/results/a.txt".
Proof.
  destruct (builtin_override_not_called sample_settings aliased_class
              promoted_job BJobData "a.txt") as (_ & Hd & Hr).
  destruct (Hd eq_refl) as [Hd' _]. destruct (Hr eq_refl) as [Hr' _].
  unfold job_data, job_results. rewrite Hd', Hr'. split; reflexivity.
Defined.

(** ** The temporary identity *)

Lemma randrange_bounds (lo hi draw : Z) :
  lo < hi -> lo <= randrange lo hi draw < hi.
Proof.
  intros H. unfold randrange.
  pose proof (Z.mod_pos_bound draw (hi - lo)). lia.
Qed.

(** C4 as stated fails: constructing an instance stores no temporary identity
    on it, and two instances of one model read the same value from the model,
    whatever would be drawn at their construction. *)
Lemma tmp_id_shared_counterexample :
  _tmp_id (new_job "first" ∅) = None
  /\ _tmp_id (new_job "second" ∅) = None
  /\ getattr_tmp_id sample_class (new_job "first" ∅) = Some 1234567
  /\ getattr_tmp_id sample_class (new_job "second" ∅) = Some 1234567
  /\ spec_instance_tmp_id 1 = 1000001
  /\ spec_instance_tmp_id 2 = 1000002.
Proof. repeat split. Qed.

(** C4 (amended): the manager draws one temporary identity in
    [[10^6, 10^7)] per model class, when it is attached to the class; every
    instance constructed from that class reads this same value. *)
Theorem tmp_id_per_class (draw : Z) (model : JobClass)
    (ident1 ident2 : string) (uploads1 uploads2 : gmap string string) :
  exists t,
    cls_tmp_id (contribute_to_class draw model) = Some t
    /\ 10 ^ 6 <= t < 10 ^ 7
    /\ getattr_tmp_id (contribute_to_class draw model) (new_job ident1 uploads1) = Some t
    /\ getattr_tmp_id (contribute_to_class draw model) (new_job ident2 uploads2) = Some t.
Proof.
  exists (randrange (10 ^ 6) (10 ^ 7) draw). repeat split;
    apply randrange_bounds; lia.
Qed.

(** ** The default slug *)

Lemma substring_min (m : nat) (s : string) :
  String.substring 0 (Nat.min (String.length s) m) s = String.substring 0 m s.
Proof.
  revert m. induction s as [|ch s IH]; intros [|m]; simpl; try reflexivity.
  now rewrite IH.
Qed.

Lemma substring_length_le (m : nat) (s : string) :
  (String.length (String.substring 0 m s) <= m)%nat.
Proof.
  revert m. induction s as [|ch s IH]; intros [|m]; simpl; try lia.
  specialize (IH m). lia.
Qed.

Lemma strftime_length (t : Z) : String.length (strftime_yymmddHHMM t) = 10%nat.
Proof.
  unfold strftime_yymmddHHMM.
  destruct (civil_from_days (t / 60000000 / 1440)) as [[y m] d].
  reflexivity.
Qed.

Lemma slug_seed_length (c : JobClass) (j : Job) (seed : string) :
  slug_seed c j = OK seed -> (String.length seed <= SLUG_RND_LENGTH)%nat.
Proof.
  unfold slug_seed. destruct (is_empty (identifier j)).
  - destruct (__name__ c); intros H; [discriminate|].
    apply OK_inj in H. subst. simpl. unfold SLUG_RND_LENGTH. lia.
  - intros H. apply OK_inj in H. subst. rewrite substring_min.
    apply substring_length_le.
Qed.

Lemma pretty_N_six_digits (x : N) :
  (100000 <= x < 1000000)%N -> String.length (pretty x) = 6%nat.
Proof.
  intros Hx. unfold pretty, pretty_N.
  destruct (decide (x = 0%N)); [lia|].
  assert (Hstep : forall lo y : N,
             (10 * lo <= y < 100 * lo)%N -> (lo <= N.div y 10 < 10 * lo)%N).
  { intros lo y Hy.
    split; [apply N.div_le_lower_bound | apply N.Div0.div_lt_upper_bound]; lia. }
  set (q1 := N.div x 10). set (q2 := N.div q1 10). set (q3 := N.div q2 10).
  set (q4 := N.div q3 10). set (q5 := N.div q4 10).
  assert (H1 : (10000 <= q1 < 100000)%N) by (apply (Hstep 10000%N); lia).
  assert (H2 : (1000 <= q2 < 10000)%N) by (apply (Hstep 1000%N); lia).
  assert (H3 : (100 <= q3 < 1000)%N) by (apply (Hstep 100%N); lia).
  assert (H4 : (10 <= q4 < 100)%N) by (apply (Hstep 10%N); lia).
  assert (H5 : (1 <= q5 < 10)%N) by (apply (Hstep 1%N); lia).
  assert (H6 : N.div q5 10 = 0%N) by (apply N.div_small; lia).
  rewrite (pretty_N_go_step x) by lia. fold q1.
  rewrite (pretty_N_go_step q1) by lia. fold q2.
  rewrite (pretty_N_go_step q2) by lia. fold q3.
  rewrite (pretty_N_go_step q3) by lia. fold q4.
  rewrite (pretty_N_go_step q4) by lia. fold q5.
  rewrite (pretty_N_go_step q5) by lia.
  rewrite H6, pretty_N_go_0. reflexivity.
Qed.

Lemma str_six_digits (r : Z) : 10 ^ 5 <= r < 10 ^ 6 -> String.length (str r) = 6%nat.
Proof.
  intros Hr. unfold str, pretty, pretty_Z.
  destruct r as [|p|p]; try lia.
  apply (pretty_N_six_digits (Npos p)). lia.
Qed.

(** C5: with a non-empty identifier the default slug is the first six
    characters of the identifier followed by the timestamp as [YYMMDDHHmm];
    it is produced by the step [slug_fit], which cuts any string longer than
    32 characters to [32 - 6] characters and appends a random six-digit
    number. *)
Theorem slug_default_identifier (draw : Z) (c : JobClass) (j : Job) (t : Z) :
  identifier j <> EmptyString -> timestamp j = Some t ->
  let base := String.substring 0 6 (identifier j) +:+ strftime_yymmddHHMM t in
  slug_default draw c j = OK base
  /\ slug_default draw c j = OK (slug_fit draw base)
  /\ forall s, (32 < String.length s)%nat ->
       exists r, 10 ^ 5 <= r < 10 ^ 6 /\ String.length (str r) = 6%nat
         /\ slug_fit draw s = String.substring 0 (32 - 6) s +:+ str r.
Proof.
  intros Hid Ht base.
  assert (Hs : slug_default draw c j = OK (slug_fit draw base)).
  { unfold slug_default, slug_seed.
    destruct (identifier j) as [|ch s] eqn:E; [contradiction|].
    simpl is_empty. cbv iota. rewrite substring_min. simpl bind.
    rewrite Ht. subst base. reflexivity. }
  assert (Hlen : (String.length base <= 16)%nat).
  { subst base. rewrite length_append, strftime_length.
    pose proof (substring_length_le 6 (identifier j)). lia. }
  split_and!.
  - rewrite Hs. unfold slug_fit.
    destruct (Nat.ltb_spec SLUG_MAX_LENGTH (String.length base)) as [Hlt|_];
      [unfold SLUG_MAX_LENGTH in Hlt; lia | reflexivity].
  - exact Hs.
  - intros s Hlong. unfold slug_fit.
    destruct (Nat.ltb_spec SLUG_MAX_LENGTH (String.length s)) as [_|Hge];
      [|unfold SLUG_MAX_LENGTH in Hge; lia].
    exists (randrange (10 ^ (Z.of_nat SLUG_RND_LENGTH - 1))
                      (10 ^ Z.of_nat SLUG_RND_LENGTH) draw).
    assert (Hb : 10 ^ 5 <=
                 randrange (10 ^ (Z.of_nat SLUG_RND_LENGTH - 1))
                           (10 ^ Z.of_nat SLUG_RND_LENGTH) draw < 10 ^ 6).
    { apply (randrange_bounds (10 ^ 5) (10 ^ 6)). lia. }
    split; [exact Hb|]. split; [apply str_six_digits; exact Hb | reflexivity].
Qed.

Lemma slug_default_identifier_witness :
  slug_default 0 sample_class stamped_job = OK "abcdef2305011030".
Proof.
  destruct (slug_default_identifier 0 sample_class stamped_job 1682937000000000)
    as (H & _).
  - discriminate.
  - reflexivity.
  - exact H.
Defined.

(** The truncation step on a string of forty characters. *)
Lemma slug_fit_long_example :
  slug_fit 5 "0123456789012345678901234567890123456789"
  = "01234567890123456789012345100005".
Proof. reflexivity. Qed.

(** C10: whatever [slug_default] returns has at most 16 characters: a seed of
    at most six characters and the ten characters of the timestamp; the test
    that guards the truncation branch is therefore always false, and the
    result does not depend on the random draw. *)
Theorem slug_default_short (draw : Z) (c : JobClass) (j : Job) (slug : string) :
  slug_default draw c j = OK slug ->
  (String.length slug <= 16)%nat
  /\ (exists seed t, slug_seed c j = OK seed /\ timestamp j = Some t
        /\ Nat.ltb SLUG_MAX_LENGTH
             (String.length (seed +:+ strftime_yymmddHHMM t)) = false
        /\ slug = seed +:+ strftime_yymmddHHMM t)
  /\ forall draw', slug_default draw' c j = OK slug.
Proof.
  unfold slug_default. intros H.
  destruct (slug_seed c j) as [seed|e] eqn:Hseed; simpl in *; [|discriminate].
  destruct (timestamp j) as [t|]; [|discriminate].
  apply OK_inj in H.
  pose proof (slug_seed_length c j seed Hseed) as Hlen.
  unfold SLUG_RND_LENGTH in Hlen.
  assert (Hbase : (String.length (seed +:+ strftime_yymmddHHMM t) <= 16)%nat).
  { rewrite length_append, strftime_length. lia. }
  assert (Hfit : forall d, slug_fit d (seed +:+ strftime_yymmddHHMM t)
                           = seed +:+ strftime_yymmddHHMM t).
  { intros d. unfold slug_fit.
    destruct (Nat.ltb_spec SLUG_MAX_LENGTH
                (String.length (seed +:+ strftime_yymmddHHMM t))) as [Hlt|_];
      [unfold SLUG_MAX_LENGTH in Hlt; lia | reflexivity]. }
  rewrite Hfit in H. subst slug. repeat split.
  - exact Hbase.
  - exists seed, t. repeat split.
    apply Nat.ltb_ge. unfold SLUG_MAX_LENGTH. lia.
  - intros draw'. now rewrite Hfit.
Qed.

Lemma slug_default_short_witness :
  (String.length "abcdef2305011030" <= 16)%nat.
Proof.
  apply (slug_default_short 0 sample_class stamped_job "abcdef2305011030").
  reflexivity.
Defined.

(** ** What promotion leaves untouched *)

Lemma same_row_refl (j : Job) : same_row j j.
Proof. repeat split. Qed.

Lemma same_row_trans (j1 j2 j3 : Job) :
  same_row j1 j2 -> same_row j2 j3 -> same_row j1 j3.
Proof.
  unfold same_row. intros (?&?&?&?) (?&?&?&?). repeat split; congruence.
Qed.

Section PromotionFacts.

Variable st : Settings.
Variable alt : FS -> string -> string.

Lemma promote_field_same_row (c : JobClass) (j : Job) (fs : FS) (field : string)
    (j' : Job) (fs' : FS) (e : option exn) :
  promote_field st alt c j fs field = (j', fs', e) -> same_row j j'.
Proof.
  unfold promote_field. intros H.
  repeat (case_match; simplify_eq); repeat split.
Qed.

Lemma promote_same_row (c : JobClass) (fields : list string) (j : Job) (fs : FS)
    (j' : Job) (fs' : FS) (e : option exn) :
  promote st alt c fields j fs = (j', fs', e) -> same_row j j'.
Proof.
  revert j fs. induction fields as [|f rest IH]; intros j fs H; simpl in H.
  - simplify_eq. apply same_row_refl.
  - destruct (promote_field st alt c j fs f) as [[j1 fs1] [e1|]] eqn:Hf.
    + simplify_eq. exact (promote_field_same_row _ _ _ _ _ _ _ Hf).
    + eapply same_row_trans; [exact (promote_field_same_row _ _ _ _ _ _ _ Hf)|].
      exact (IH _ _ H).
Qed.

Lemma move_to_data_same_row (c : JobClass) (created : bool) (j : Job) (fs : FS)
    (j' : Job) (fs' : FS) (e : option exn) :
  move_to_data st alt c created j fs = (j', fs', e) -> same_row j j'.
Proof.
  unfold move_to_data. intros H.
  destruct (required_user_files c) as [required|]; [|simplify_eq; apply same_row_refl].
  destruct created; [|simplify_eq; apply same_row_refl].
  destruct (promote st alt c required (set_tmp_files (Some required) j) fs)
    as [[j1 fs1] [e1|]] eqn:Hp;
    pose proof (promote_same_row _ _ _ _ _ _ _ Hp) as Hrow.
  - simplify_eq. exact Hrow.
  - repeat (case_match; simplify_eq); exact Hrow.
Qed.

(** Without a creation there is nothing to promote. *)
Lemma move_to_data_not_created (c : JobClass) (j : Job) (fs : FS)
    (j' : Job) (fs' : FS) :
  move_to_data st alt c false j fs = (j', fs', None) -> j' = j /\ fs' = fs.
Proof.
  unfold move_to_data. destruct (required_user_files c); intros H; simplify_eq; auto.
Qed.

End PromotionFacts.

(** ** The creation save *)

Section SaveFacts.

Variable st : Settings.
Variable alt : FS -> string -> string.

(** After [models.Model.save] the instance has a key with a row, and its
    [closure] is the one it came with. *)
Lemma model_save_row (now : Z) (c : JobClass) (j : Job) (fs : FS) (db : DB)
    (j' : Job) (fs' : FS) (e : option exn) (db' : DB) :
  model_save st alt now c j fs db = ((j', fs', e), db') ->
  closure j' = closure j
  /\ exists n, id j' = Some n /\ n ∈ rows db'
       /\ (id j = None -> n = next_id db).
Proof.
  unfold model_save. intros H.
  destruct (id j) as [n|] eqn:Hid.
  - destruct (decide (n ∈ rows db)) as [Hin|Hin];
      destruct (post_save_connected c); simplify_eq;
      try match goal with
          | Hm : move_to_data _ _ _ _ _ _ = _ |- _ =>
              apply move_to_data_same_row in Hm; destruct Hm as (Hi&_&Hc&_);
              simpl in Hi, Hc; rewrite Hc; split; [reflexivity|];
              exists n; rewrite Hi, Hid; repeat split;
              try exact Hin; try set_solver; discriminate
          end.
    + split; [reflexivity|]. exists n. rewrite Hid. repeat split; [exact Hin | discriminate].
    + split; [reflexivity|]. exists n. simpl. rewrite Hid.
      repeat split; [set_solver | discriminate].
  - destruct (post_save_connected c); simplify_eq.
    + match goal with
      | Hm : move_to_data _ _ _ _ _ _ = _ |- _ =>
          apply move_to_data_same_row in Hm; destruct Hm as (Hi&_&Hc&_)
      end.
      simpl in Hi, Hc. rewrite Hc. split; [reflexivity|].
      exists (next_id db). rewrite Hi. repeat split. simpl. set_solver.
    + split; [reflexivity|]. exists (next_id db). repeat split. simpl. set_solver.
Qed.

(** Saving an instance whose row exists changes nothing in memory. *)
Lemma model_save_update (now : Z) (c : JobClass) (j : Job) (fs : FS) (db : DB)
    (n : Z) (j' : Job) (fs' : FS) (db' : DB) :
  id j = Some n -> n ∈ rows db ->
  model_save st alt now c j fs db = ((j', fs', None), db') ->
  j' = j /\ fs' = fs /\ db' = db.
Proof.
  unfold model_save. intros Hid Hin H. rewrite Hid in H.
  destruct (decide (n ∈ rows db)); [|contradiction].
  destruct (post_save_connected c); simplify_eq; auto.
  match goal with
  | Hm : move_to_data _ _ _ _ _ _ = _ |- _ =>
      apply move_to_data_not_created in Hm; destruct Hm; subst; auto
  end.
Qed.

(** C6: when the creation save (id unset on entry) completes, [closure]
    equals [timestamp + TTL], whatever the configured [TTL]. *)
Theorem save_sets_closure (now : Z) (results_exist_ok : bool) (c : JobClass)
    (j : Job) (fs : FS) (db : DB) (j' : Job) (fs' : FS) (db' : DB) :
  id_unset j ->
  save st alt now results_exist_ok c j fs db = ((j', fs', None), db') ->
  exists t, timestamp j' = Some t /\ closure j' = Some (t + TTL st).
Proof.
  intros Hunset. apply truthy_id_unset in Hunset.
  unfold save. rewrite Hunset. simpl negb. cbv iota.
  destruct (model_save st alt now c j fs db) as [[[j1 fs1] [e1|]] db1] eqn:H1;
    [intros H; simplify_eq|].
  destruct (timestamp j1) as [t|] eqn:Ht; [|intros H; simplify_eq].
  unfold add_timedelta.
  destruct ((datetime_min <=? t + TTL st) && (t + TTL st <=? datetime_max));
    [|intros H; simplify_eq].
  destruct (model_save st alt now c (set_closure (Some (t + TTL st)) j1) fs1 db1)
    as [[[j3 fs3] [e3|]] db3] eqn:H2; [intros H; simplify_eq|].
  destruct (model_save_row _ _ _ _ _ _ _ _ _ H1) as (_ & n & Hn & Hin & _).
  destruct (model_save_update now c (set_closure (Some (t + TTL st)) j1)
              fs1 db1 n j3 fs3 db3 Hn Hin H2) as (-> & -> & ->).
  intros H. repeat (case_match; simplify_eq).
  exists t. split; [exact Ht | reflexivity].
Qed.

End SaveFacts.

Lemma save_sets_closure_witness :
  exists t, timestamp sample_saved.1.1.1 = Some t
            /\ closure sample_saved.1.1.1 = Some (t + 3600000000).
Proof.
  apply (save_sets_closure sample_settings sample_alt sample_now false
           sample_class sample_job sample_fs sample_db
           sample_saved.1.1.1 sample_saved.1.1.2 sample_saved.2).
  - left. reflexivity.
  - vm_compute. reflexivity.
Defined.

(** ** Running the promotion loop *)

Section PromoteRun.

Variable st : Settings.
Variable alt : FS -> string -> string.
Variable c : JobClass.

(** The key of the job, the value of its instance attribute [_tmp_id], and
    for each field the storage name of its upload and the name it is
    promoted to. *)
Variable n : Z.
Variable tid : option Z.
Variable old dest : string -> string.

Local Abbreviation stable := (stable st c n tid old dest).
Local Abbreviation ready := (ready c n tid old dest).
Local Abbreviation promoted := (promoted n tid old dest).

Lemma list_remove_head (f : string) (l : list string) :
  list_remove f (f :: l) = Some l.
Proof. simpl. now rewrite String.eqb_refl. Qed.

(** One turn of the loop on a ready field at the head of the pending list. *)
Lemma promote_field_ready (f : string) (l rest : list string) (j : Job) (fs : FS) :
  stable (f :: l) -> ready (f :: l) j fs ->
  _tmp_files j = Some (f :: rest) ->
  exists content,
    fs_files fs !! old f = Some content
    /\ promote_field st alt c j fs f
       = (set_tmp_files (Some rest) (set_file_name f (dest f) j),
          storage_delete
            {| fs_files := <[dest f := content]> (fs_files fs);
               fs_dirs := list_to_set (ancestors (dest f)) ∪ fs_dirs fs |}
            (old f),
          None).
Proof.
  intros Hst (Hid & Htid & Hf) Hpend.
  destruct (Hf f) as ([u Hu] & Hname & Hne & [content Hc] & Hfree);
    [apply elem_of_cons; auto|].
  exists content. split; [exact Hc|].
  unfold promote_field. rewrite Hu, Hname. simpl default. rewrite Hne.
  rewrite (Hst f u j); [| apply elem_of_cons; auto | exact Hu | exact Hid
                        | exact Htid | rewrite Hpend; reflexivity].
  unfold storage_save, get_available_name. rewrite Hc, Hfree.
  simpl _tmp_files. rewrite Hpend, list_remove_head. reflexivity.
Qed.

(** The loop over a list of ready fields with distinct uploads and distinct
    destinations runs to its end and promotes every field. *)
Lemma promote_run (l : list string) :
  forall (rest : list string) (j : Job) (fs : FS),
    stable l -> NoDup (dest <$> l) -> NoDup (old <$> l) ->
    ready l j fs -> _tmp_files j = Some (l ++ rest) ->
    exists j' fs',
      promote st alt c l j fs = (j', fs', None)
      /\ _tmp_files j' = Some rest
      /\ promoted l j fs j' fs'.
Proof.
  induction l as [|f l IH]; intros rest j fs Hst Hnd Hno Hready Hpend.
  - exists j, fs. destruct Hready as (Hid & Htid & _).
    repeat split; auto; set_solver.
  - destruct (promote_field_ready f l (l ++ rest) j fs Hst Hready Hpend)
      as (content & Hc & Hstep).
    destruct Hready as (Hid & Htid & Hf).
    apply NoDup_cons in Hnd as [Hfd Hnd]. apply NoDup_cons in Hno as [Hfo Hno].
    assert (Hff : forall g, g ∈ l -> g <> f).
    { intros g Hg ->. apply Hfd. now apply list_elem_of_fmap_2. }
    assert (Hfree : fs_files fs !! dest f = None).
    { apply (Hf f). apply elem_of_cons; auto. }
    assert (Hod : forall g, g ∈ f :: l -> old g <> dest f).
    { intros g Hg E. destruct (Hf g Hg) as (_ & _ & _ & [x Hx] & _).
      rewrite E, Hfree in Hx. discriminate. }
    set (j1 := set_tmp_files (Some (l ++ rest)) (set_file_name f (dest f) j)) in *.
    set (fs1 := storage_delete
                  {| fs_files := <[dest f := content]> (fs_files fs);
                     fs_dirs := list_to_set (ancestors (dest f)) ∪ fs_dirs fs |}
                  (old f)) in *.
    assert (Hlook : forall p, p <> old f -> p <> dest f ->
                              fs_files fs1 !! p = fs_files fs !! p).
    { intros p H1 H2. unfold fs1, storage_delete. simpl.
      rewrite lookup_delete_ne by congruence.
      now rewrite lookup_insert_ne by congruence. }
    assert (Hready1 : ready l j1 fs1).
    { split; [exact Hid|]. split; [exact Htid|]. intros g Hg.
      destruct (Hf g) as (Hu & Hname & Hne & Hx & Hd);
        [apply elem_of_cons; auto|].
      split_and!; [exact Hu | | exact Hne | |].
      - unfold j1. simpl. rewrite lookup_insert_ne; [exact Hname|].
        intros E. exact (Hff g Hg (eq_sym E)).
      - rewrite Hlook; [exact Hx | | apply Hod; apply elem_of_cons; auto].
        intros E. apply Hfo. rewrite <- E. now apply list_elem_of_fmap_2.
      - unfold fs1, storage_delete. simpl. apply lookup_delete_None. right.
        rewrite lookup_insert_ne; [exact Hd|].
        intros E. apply Hfd. rewrite E. now apply list_elem_of_fmap_2. }
    assert (Hst1 : stable l).
    { intros g u j' Hg. apply Hst. apply elem_of_cons; auto. }
    destruct (IH rest j1 fs1 Hst1 Hnd Hno Hready1 eq_refl)
      as (j' & fs' & Hrun & Hpend' & Hid' & Htid' & Hin & Hout & Hfs & Hdirs).
    exists j', fs'. split; [simpl; rewrite Hstep; exact Hrun|].
    split; [exact Hpend'|].
    assert (Hfl : f ∉ l).
    { intros Hg. exact (Hff f Hg eq_refl). }
    split; [exact Hid'|]. split; [exact Htid'|].
    split; [intros g H; split_and!|]; [| | |split_and!].
    + apply elem_of_cons in H as [->|Hg]; [|apply Hin; exact Hg].
      rewrite Hout by exact Hfl. unfold j1. simpl. apply lookup_insert_eq.
    + apply elem_of_cons in H as [->|Hg].
      * rewrite Hfs; [| |exact Hfd].
        -- unfold fs1, storage_delete. simpl.
           rewrite lookup_delete_ne by (apply Hod; apply elem_of_cons; auto).
           rewrite lookup_insert_eq. now rewrite Hc.
        -- intros Hg. apply list_elem_of_fmap_1 in Hg as (g & E & Hg).
           apply (Hod g); [apply elem_of_cons; auto | congruence].
      * destruct (Hin g Hg) as (_ & -> & _).
        apply Hlook; [|apply Hod; apply elem_of_cons; auto].
        intros E. apply Hfo. rewrite <- E. now apply list_elem_of_fmap_2.
    + apply elem_of_cons in H as [->|Hg]; [|apply Hin; exact Hg].
      rewrite Hfs; [unfold fs1, storage_delete; simpl; apply lookup_delete_eq
                   | exact Hfo |].
      intros Hg. apply list_elem_of_fmap_1 in Hg as (g & E & Hg).
      destruct (Hf g) as (_ & _ & _ & _ & Hd); [apply elem_of_cons; auto|].
      rewrite <- E, Hc in Hd. discriminate.
    + intros g Hg. apply not_elem_of_cons in Hg as [Hgf Hg].
      rewrite Hout by exact Hg. unfold j1. simpl.
      now rewrite lookup_insert_ne by congruence.
    + intros p Hpo Hpd. rewrite fmap_cons in Hpo, Hpd.
      apply not_elem_of_cons in Hpo as [Hpo1 Hpo2].
      apply not_elem_of_cons in Hpd as [Hpd1 Hpd2].
      rewrite Hfs by assumption. now apply Hlook.
    + etransitivity; [|exact Hdirs]. unfold fs1. simpl. apply union_subseteq_r.
Qed.

End PromoteRun.

(** ** Removing the temporary folder *)

Lemma rmtree_ok (fs : FS) (path : string) :
  (path ∈ fs_dirs fs) ->
  exists fs',
    rmtree fs path = OK fs'
    /\ (path ∉ fs_dirs fs')
    /\ (forall p, under path p = true ->
          fs_files fs' !! p = None /\ p ∉ fs_dirs fs')
    /\ (forall p, under path p = false -> fs_files fs' !! p = fs_files fs !! p)
    /\ (forall p, fs_files fs !! p = None -> fs_files fs' !! p = None).
Proof.
  intros Hin. unfold rmtree. destruct (decide (path ∈ fs_dirs fs)); [|contradiction].
  eexists. split; [reflexivity|]. simpl. split_and!.
  - intros H. apply elem_of_filter in H as [[H _] _]. now apply H.
  - intros p Hp. split.
    + apply map_lookup_filter_None_2. right. intros x _ H. simpl in H. congruence.
    + intros H. apply elem_of_filter in H as [[_ H] _]. congruence.
  - intros p Hp. destruct (fs_files fs !! p) as [x|] eqn:E.
    + apply map_lookup_filter_Some_2; [exact E | exact Hp].
    + apply map_lookup_filter_None_2. now left.
  - intros p Hp. apply map_lookup_filter_None_2. now left.
Qed.

(** ** The promotion protocol as a whole *)

(** C2 (amended): for a job with its id assigned, a live temporary identity
    and no callable [job_root], whose required fields are declared file fields
    with distinct uploads present in storage and distinct, free destinations
    outside the temporary folder, and whose temporary folder exists,
    [move_to_data] completes; afterwards the temporary folder and everything
    below it are gone, the temporary identity is exhausted, and every required
    field refers to the path its path function computed under the id, where
    the bytes of the upload now are, the upload itself being deleted. *)
Theorem move_to_data_promotes (st : Settings) (alt : FS -> string -> string)
    (c : JobClass) (j : Job) (fs : FS) (n t : Z) (required : list string)
    (old dest : string -> string) :
  not_callable c ->
  required_user_files c = Some required ->
  n <> 0 -> getattr_tmp_id c j = Some t -> t <> 0 ->
  stable st c n (_tmp_id j) old dest required ->
  ready c n (_tmp_id j) old dest required j fs ->
  NoDup (dest <$> required) -> NoDup (old <$> required) ->
  (os_path_join (root_head st c) (tmp_tail t) ∈ fs_dirs fs) ->
  (forall f, f ∈ required ->
     under (os_path_join (root_head st c) (tmp_tail t)) (dest f) = false) ->
  exists j' fs',
    move_to_data st alt c true j fs = (j', fs', None)
    /\ _tmp_id j' = Some 0 /\ _tmp_files j' = Some []
    /\ root_job st c j' = OK (os_path_join (root_head st c) (str n))
    /\ (os_path_join (root_head st c) (tmp_tail t) ∉ fs_dirs fs')
    /\ (forall p, under (os_path_join (root_head st c) (tmp_tail t)) p = true ->
          fs_files fs' !! p = None /\ p ∉ fs_dirs fs')
    /\ forall f, f ∈ required ->
         file_names j' !! f = Some (dest f)
         /\ is_Some (fs_files fs !! old f)
         /\ fs_files fs' !! dest f = fs_files fs !! old f
         /\ fs_files fs' !! old f = None.
Proof.
  intros Hc Hreq Hn Ht Ht0 Hst Hready Hnd Hno Hdir Hout.
  set (tmp_root := os_path_join (root_head st c) (tmp_tail t)) in *.
  assert (Hready0 : ready c n (_tmp_id j) old dest required
                      (set_tmp_files (Some required) j) fs).
  { exact Hready. }
  destruct (promote_run st alt c n (_tmp_id j) old dest required []
              (set_tmp_files (Some required) j) fs Hst Hnd Hno Hready0)
    as (j1 & fs1 & Hrun & Hpend & Hid1 & Htid1 & Hin & _ & _ & Hdirs).
  { simpl. now rewrite app_nil_r. }
  assert (Hroot : root_job st c j1 = OK tmp_root).
  { rewrite root_job_not_callable by exact Hc.
    assert (Hg : getattr_tmp_id c j1 = Some t).
    { unfold getattr_tmp_id in *. now rewrite Htid1. }
    assert (Hu : uses_tmp c j1 = true).
    { apply (uses_tmp_spec c j1 t Hg). right. split; [exact Ht0|].
      right. exact Hpend. }
    now rewrite Hu, Hg. }
  destruct (rmtree_ok fs1 tmp_root) as (fs2 & Hrm & Hgone & Hbelow & Hkeep & Hnone).
  { apply Hdirs. exact Hdir. }
  exists (set_tmp_id (Some 0) j1), fs2. split_and!.
  - unfold move_to_data. rewrite Hreq, Hrun, Hroot, Hrm. reflexivity.
  - reflexivity.
  - exact Hpend.
  - apply (root_job_exhausted st c (set_tmp_id (Some 0) j1) n); auto.
  - exact Hgone.
  - exact Hbelow.
  - intros f Hf. destruct (Hin f Hf) as (Hname & Hd & Ho).
    destruct Hready as (_ & _ & Hr). destruct (Hr f Hf) as (_ & _ & _ & Hx & _).
    split_and!.
    + exact Hname.
    + exact Hx.
    + rewrite Hkeep by (apply Hout; exact Hf). exact Hd.
    + apply Hnone. exact Ho.
Qed.

Lemma sample_fields (f : string) : f ∈ ["f"; "g"] -> f = "f" \/ f = "g".
Proof.
  intros H. apply elem_of_cons in H as [->|H]; [now left|].
  apply elem_of_cons in H as [->|H]; [now right|].
  now apply elem_of_nil in H.
Qed.

Lemma move_to_data_promotes_witness :
  exists j' fs',
    move_to_data sample_settings sample_alt sample_class true inserted_job sample_fs
      = (j', fs', None)
    /\ _tmp_id j' = Some 0 /\ _tmp_files j' = Some []
    /\ root_job sample_settings sample_class j' = OK "/srv/app/myjob/7"
    /\ ("/srv/app/myjob/tmp/1234567" ∉ fs_dirs fs')
    /\ (forall p, under "/srv/app/myjob/tmp/1234567" p = true ->
          fs_files fs' !! p = None /\ p ∉ fs_dirs fs')
    /\ forall f, f ∈ ["f"; "g"] ->
         file_names j' !! f = Some (sample_dest f)
         /\ is_Some (fs_files sample_fs !! sample_old f)
         /\ fs_files fs' !! sample_dest f = fs_files sample_fs !! sample_old f
         /\ fs_files fs' !! sample_old f = None.
Proof.
  apply (move_to_data_promotes sample_settings sample_alt sample_class
           inserted_job sample_fs 7 1234567 ["f"; "g"] sample_old sample_dest).
  - intros f. discriminate.
  - reflexivity.
  - lia.
  - reflexivity.
  - lia.
  - intros f u j' Hf Hu Hid Htid Hpend.
    assert (Hu' : u = ToJobData).
    { destruct (sample_fields f Hf) as [->| ->]; vm_compute in Hu; congruence. }
    subst u. unfold upload_to, job_data, job_data_with, root_job, uses_tmp,
      getattr_tmp_id.
    rewrite Hid, Htid, Hpend.
    destruct (sample_fields f Hf) as [->| ->]; vm_compute; reflexivity.
  - split; [reflexivity|]. split; [reflexivity|]. intros f Hf.
    destruct (sample_fields f Hf) as [->| ->]; split_and!;
      try (eexists; vm_compute; reflexivity); vm_compute; reflexivity.
  - refine (bool_decide_unpack _ _). vm_compute. exact I.
  - refine (bool_decide_unpack _ _). vm_compute. exact I.
  - refine (bool_decide_unpack _ _). vm_compute. exact I.
  - intros f Hf. destruct (sample_fields f Hf) as [->| ->]; vm_compute; reflexivity.
Defined.

(** C2 as stated fails: with a callable [job_root] the destination is the
    upload's own path; promotion completes, the field refers to that path,
    and no file is there any more. *)
Lemma move_to_data_callable_root_counterexample :
  required_user_files callable_root_class = Some ["f"]
  /\ is_Some (fs_files callable_root_fs !! "custom/root/data/a.txt")
  /\ callable_root_moved.2 = None
  /\ file_names callable_root_moved.1.1 !! "f" = Some "custom/root/data/a.txt"
  /\ upload_to sample_settings ToJobData callable_root_class
       callable_root_moved.1.1 "a.txt" = OK "custom/root/data/a.txt"
  /\ fs_files callable_root_moved.1.2 !! "custom/root/data/a.txt" = None.
Proof.
  split_and!; try (vm_compute; reflexivity).
  eexists. vm_compute. reflexivity.
Qed.

(** ** A required file that is missing *)

Section MissingFile.

Variable st : Settings.
Variable alt : FS -> string -> string.

Lemma promote_field_pending (c : JobClass) (j : Job) (fs : FS) (f : string)
    (rest : list string) (j' : Job) (fs' : FS) :
  promote_field st alt c j fs f = (j', fs', None) ->
  _tmp_files j = Some (f :: rest) -> _tmp_files j' = Some rest.
Proof.
  unfold promote_field. intros H Hpend.
  repeat (case_match; simplify_eq). simpl in *.
  assert (l = f :: rest) by congruence. subst l.
  rewrite list_remove_head in *. congruence.
Qed.

Lemma promote_pending (c : JobClass) (l rest : list string) :
  forall (j : Job) (fs : FS) (j' : Job) (fs' : FS),
    promote st alt c l j fs = (j', fs', None) ->
    _tmp_files j = Some (l ++ rest) -> _tmp_files j' = Some rest.
Proof.
  induction l as [|f l IH]; intros j fs j' fs' H Hpend; simpl in H.
  - simplify_eq. exact Hpend.
  - destruct (promote_field st alt c j fs f) as [[j1 fs1] [e1|]] eqn:Hf;
      [discriminate|].
    apply (IH j1 fs1 j' fs' H).
    exact (promote_field_pending c j fs f (l ++ rest) j1 fs1 Hf Hpend).
Qed.

Lemma promote_app (c : JobClass) (l1 l2 : list string) :
  forall (j : Job) (fs : FS),
    promote st alt c (l1 ++ l2) j fs =
      match promote st alt c l1 j fs with
      | (j1, fs1, None) => promote st alt c l2 j1 fs1
      | failed => failed
      end.
Proof.
  induction l1 as [|f l1 IH]; intros j fs; simpl; [reflexivity|].
  destruct (promote_field st alt c j fs f) as [[j1 fs1] [e1|]];
    [reflexivity | apply IH].
Qed.

(** C3: on the creation save of a job without id and without closure, when
    the fields before [field] in the required list are promoted and [field]
    then has no file, [FileNotFoundError] naming [field] is raised out of
    [save]; the job keeps the id it was assigned, its closure stays unset, the
    instance and the storage are exactly as promoting the earlier fields left
    them, and [field] and the fields after it are still pending. *)
Theorem save_missing_required_file (now : Z) (results_exist_ok : bool)
    (c : JobClass) (j : Job) (fs : FS) (db : DB)
    (pre : list string) (field : string) (post : list string)
    (j1 : Job) (fs1 : FS) :
  id j = None -> closure j = None ->
  post_save_connected c = true ->
  required_user_files c = Some (pre ++ field :: post) ->
  promote st alt c pre
    (set_tmp_files (Some (pre ++ field :: post))
       (set_timestamp (Some now) (set_id (Some (next_id db)) j))) fs
    = (j1, fs1, None) ->
  is_Some (file_fields c !! field) ->
  default EmptyString (file_names j1 !! field) = EmptyString ->
  save st alt now results_exist_ok c j fs db
    = ((j1, fs1, Some (FileNotFoundError (missing_message field))),
       {| next_id := next_id db + 1; rows := {[ next_id db ]} ∪ rows db |})
  /\ id j1 = Some (next_id db)
  /\ closure j1 = None
  /\ _tmp_files j1 = Some (field :: post).
Proof.
  intros Hid Hcl Hconn Hreq Hpre [u Hu] Hempty.
  assert (Hfield : promote st alt c (field :: post) j1 fs1
                   = (j1, fs1, Some (FileNotFoundError (missing_message field)))).
  { simpl. unfold promote_field. rewrite Hu, Hempty. reflexivity. }
  split_and!.
  - unfold save, model_save. rewrite Hid, Hconn. simpl truthy_int. simpl negb.
    unfold move_to_data. rewrite Hreq, promote_app, Hpre, Hfield. reflexivity.
  - destruct (promote_same_row _ _ _ _ _ _ _ _ _ Hpre) as (H & _). exact H.
  - destruct (promote_same_row _ _ _ _ _ _ _ _ _ Hpre) as (_ & _ & H & _).
    rewrite H. exact Hcl.
  - exact (promote_pending c pre (field :: post) _ _ _ _ Hpre eq_refl).
Qed.

End MissingFile.

Lemma save_missing_required_file_witness :
  save sample_settings sample_alt sample_now false
    sample_class incomplete_job sample_fs sample_db
    = ((incomplete_promoted.1.1, incomplete_promoted.1.2,
        Some (FileNotFoundError
                "g is indicated as required, but no file could be found")),
       {| next_id := 8; rows := {[ 7 ]} ∪ ∅ |})
  /\ id incomplete_promoted.1.1 = Some 7
  /\ closure incomplete_promoted.1.1 = None
  /\ _tmp_files incomplete_promoted.1.1 = Some ["g"].
Proof.
  apply (save_missing_required_file sample_settings sample_alt sample_now false
           sample_class incomplete_job sample_fs sample_db ["f"] "g" []).
  - reflexivity.
  - reflexivity.
  - reflexivity.
  - reflexivity.
  - vm_compute. reflexivity.
  - eexists. vm_compute. reflexivity.
  - vm_compute. reflexivity.
Defined.

(** In that run the field processed before the missing one stays promoted:
    it refers to its permanent path, where its bytes are. *)
Lemma incomplete_promoted_first_field :
  file_names incomplete_promoted.1.1 !! "f" = Some "/srv/app/myjob/7/data/a.txt"
  /\ fs_files incomplete_promoted.1.2 !! "/srv/app/myjob/7/data/a.txt"
     = Some [Byte.x61]
  /\ fs_files incomplete_promoted.1.2 !! "/srv/app/myjob/tmp/1234567/data/a.txt"
     = None.
Proof. split_and!; vm_compute; reflexivity. Qed.

(** * Further properties of the path functions *)

(** ** When [root_job] fails, and which folders it tells apart *)



(** X3: two promoted jobs of one model with different ids have different
    folders. *)
Theorem root_job_id_injective (st : Settings) (c : JobClass) (j1 j2 : Job)
    (n1 n2 : Z) :
  not_callable c ->
  id j1 = Some n1 -> n1 <> 0 -> _tmp_id j1 = Some 0 ->
  id j2 = Some n2 -> n2 <> 0 -> _tmp_id j2 = Some 0 ->
  n1 <> n2 ->
  root_job st c j1 <> root_job st c j2.
Proof.
  intros Hc Hid1 Hn1 Ht1 Hid2 Hn2 Ht2 Hne.
  rewrite (root_job_exhausted st c j1 n1), (root_job_exhausted st c j2 n2)
    by assumption.
  intros H. apply OK_inj in H.
  apply join_inj_tail in H; [| apply str_startswith | apply str_startswith].
  apply Hne. unfold str in H. exact (pretty_Z_inj _ _ H).
Qed.

Lemma root_job_id_injective_witness :
  root_job sample_settings sample_class promoted_job
  <> root_job sample_settings sample_class (set_id (Some 8) promoted_job).
Proof.
  apply (root_job_id_injective sample_settings sample_class
           promoted_job (set_id (Some 8) promoted_job) 7 8).
  - intros f. discriminate.
  - reflexivity.
  - lia.
  - reflexivity.
  - reflexivity.
  - lia.
  - reflexivity.
  - lia.
Defined.

(** X4: the temporary folder of a job without id is never the folder of a
    promoted job of the same model. *)
Theorem root_job_tmp_not_permanent (st : Settings) (c : JobClass) (j1 j2 : Job)
    (t n : Z) :
  not_callable c ->
  id_unset j1 -> getattr_tmp_id c j1 = Some t ->
  id j2 = Some n -> n <> 0 -> _tmp_id j2 = Some 0 ->
  root_job st c j1 <> root_job st c j2.
Proof.
  intros Hc Hun Ht Hid Hn Hex.
  rewrite (root_job_exhausted st c j2 n) by assumption.
  rewrite root_job_not_callable by exact Hc.
  assert (Hu : uses_tmp c j1 = true) by (apply (uses_tmp_spec c j1 t Ht); auto).
  rewrite Hu, Ht. intros H. apply OK_inj in H.
  apply join_inj_tail in H; [| apply tmp_tail_startswith | apply str_startswith].
  exact (tmp_tail_not_str t n H).
Qed.

Lemma root_job_tmp_not_permanent_witness :
  root_job sample_settings sample_class sample_job
  <> root_job sample_settings sample_class promoted_job.
Proof.
  apply (root_job_tmp_not_permanent sample_settings sample_class
           sample_job promoted_job 1234567 7).
  - intros f. discriminate.
  - left. reflexivity.
  - reflexivity.
  - reflexivity.
  - lia.
  - reflexivity.
Defined.

(** X5: all the instances of a model that have no id yet get the same
    folder, the one of the temporary identity drawn for the model. *)
Theorem root_job_unsaved_shared (st : Settings) (draw : Z) (model : JobClass)
    (ident1 ident2 : string) (uploads1 uploads2 : gmap string string) :
  not_callable model ->
  root_job st (contribute_to_class draw model) (new_job ident1 uploads1)
  = root_job st (contribute_to_class draw model) (new_job ident2 uploads2)
  /\ root_job st (contribute_to_class draw model) (new_job ident1 uploads1)
     = OK (os_path_join (root_head st model)
             (tmp_tail (randrange (10 ^ 6) (10 ^ 7) draw))).
Proof.
  intros Hc.
  assert (Hc' : not_callable (contribute_to_class draw model)) by exact Hc.
  rewrite !root_job_not_callable by exact Hc'. split; reflexivity.
Qed.

Lemma root_job_unsaved_shared_witness :
  root_job sample_settings sample_class (new_job "first" ∅)
  = root_job sample_settings sample_class (new_job "second" ∅)
  /\ root_job sample_settings sample_class (new_job "first" ∅)
     = OK "/srv/app/myjob/tmp/1234567".
Proof.
  apply (root_job_unsaved_shared sample_settings 234567 sample_model
           "first" "second" ∅ ∅).
  intros f. discriminate.
Defined.

(** X6: an instance that has an id but went through no promotion in memory
    (no [_tmp_files] and no [_tmp_id] of its own, as after a query) is given
    the temporary folder of its model, not the folder of its id. *)
Theorem root_job_reloaded (st : Settings) (c : JobClass) (j : Job) (t n : Z) :
  not_callable c -> cls_tmp_id c = Some t -> t <> 0 ->
  reloaded j -> id j = Some n ->
  root_job st c j = OK (os_path_join (root_head st c) (tmp_tail t))
  /\ root_job st c j <> OK (os_path_join (root_head st c) (str n)).
Proof.
  intros Hc Hcls Ht0 [Htid Hfiles] Hid.
  assert (Ht : getattr_tmp_id c j = Some t).
  { unfold getattr_tmp_id. now rewrite Htid. }
  assert (Hu : uses_tmp c j = true).
  { apply (uses_tmp_spec c j t Ht). right. split; [exact Ht0 | now left]. }
  assert (Hr : root_job st c j = OK (os_path_join (root_head st c) (tmp_tail t))).
  { rewrite root_job_not_callable by exact Hc. now rewrite Hu, Ht. }
  split; [exact Hr|]. rewrite Hr. intros H. apply OK_inj in H.
  apply join_inj_tail in H; [| apply tmp_tail_startswith | apply str_startswith].
  exact (tmp_tail_not_str t n H).
Qed.

Lemma root_job_reloaded_witness :
  root_job sample_settings sample_class
    (set_id (Some 7) (new_job "abcdef123" ∅))
    = OK "/srv/app/myjob/tmp/1234567"
  /\ root_job sample_settings sample_class
       (set_id (Some 7) (new_job "abcdef123" ∅))
     <> OK (os_path_join (root_head sample_settings sample_class) (str 7)).
Proof.
  apply (root_job_reloaded sample_settings sample_class
           (set_id (Some 7) (new_job "abcdef123" ∅)) 1234567 7).
  - intros f. discriminate.
  - reflexivity.
  - lia.
  - split; reflexivity.
  - reflexivity.
Defined.

(** ** The shape of the paths below a job folder *)


Lemma endswith_sep_append (a b : string) :
  is_empty b = false -> endswith_sep (a +:+ b) = endswith_sep b.
Proof.
  intros Hb. induction a as [|ch a IH]; [reflexivity|].
  rewrite append_cons. simpl. rewrite IH.
  destruct (a +:+ b) eqn:E; [|reflexivity].
  destruct a; [|discriminate].
  change (b = EmptyString) in E. rewrite E in Hb. discriminate.
Qed.

Lemma is_empty_append (a b : string) :
  is_empty b = false -> is_empty (a +:+ b) = false.
Proof. intros Hb. destruct a; [exact Hb | reflexivity]. Qed.

Lemma pretty_N_go_tail (x : N) (s : string) :
  is_empty s = false ->
  is_empty (pretty_N_go x s) = false
  /\ endswith_sep (pretty_N_go x s) = endswith_sep s.
Proof.
  revert s. induction (N.lt_wf_0 x) as [x _ IH]. intros s Hs.
  destruct (decide (0 < x)%N) as [Hx|Hx].
  - rewrite pretty_N_go_step by exact Hx.
    destruct (IH (N.div x 10) (N.div_lt x 10 Hx eq_refl)
                (String (pretty_N_char (N.modulo x 10)) s) eq_refl) as [H1 H2].
    split; [exact H1|]. rewrite H2. destruct s; [discriminate | reflexivity].
  - replace x with 0%N by lia. rewrite pretty_N_go_0. auto.
Qed.

Lemma pretty_N_tail (x : N) :
  is_empty (pretty x) = false /\ endswith_sep (pretty x) = false.
Proof.
  unfold pretty, pretty_N. destruct (decide (x = 0%N)); [split; reflexivity|].
  rewrite pretty_N_go_step by lia.
  destruct (pretty_N_go_tail (N.div x 10)
              (String (pretty_N_char (N.modulo x 10)) EmptyString) eq_refl)
    as [H1 H2].
  split; [exact H1|]. rewrite H2. simpl. apply pretty_N_char_not_sep.
Qed.

(** The rendering of an integer is not empty and has no trailing separator. *)
Lemma str_tail (n : Z) : is_empty (str n) = false /\ endswith_sep (str n) = false.
Proof.
  unfold str, pretty, pretty_Z. destruct n as [|p|p]; [split; reflexivity | |].
  - apply (pretty_N_tail (Npos p)).
  - destruct (pretty_N_tail (Npos p)) as [H1 H2]. split; [reflexivity|].
    change ("-" +:+ pretty p) with (String "-" (pretty (Npos p))).
    simpl. destruct (pretty (Npos p)); [discriminate | exact H2].
Qed.

Lemma join_relative_tail (h t : string) :
  startswith_sep t = false -> is_empty t = false -> endswith_sep t = false ->
  is_empty (os_path_join h t) = false
  /\ endswith_sep (os_path_join h t) = false.
Proof.
  intros Hs He Ht. unfold os_path_join. rewrite Hs.
  destruct (is_empty h || endswith_sep h).
  - split; [now apply is_empty_append | now rewrite endswith_sep_append].
  - split; [now apply is_empty_append|].
    rewrite endswith_sep_append by reflexivity.
    simpl. destruct t; [discriminate | exact Ht].
Qed.

(** The folder of a job is never empty and never ends with a separator,
    unless a callable [job_root] says otherwise. *)
Lemma root_job_shape (st : Settings) (c : JobClass) (j : Job) (root : string) :
  not_callable c -> root_job st c j = OK root ->
  is_empty root = false /\ endswith_sep root = false.
Proof.
  intros Hc. rewrite root_job_not_callable by exact Hc.
  destruct (uses_tmp c j).
  - destruct (getattr_tmp_id c j) as [t|]; [|discriminate].
    intros H. apply OK_inj in H. subst root.
    apply join_relative_tail; [apply tmp_tail_startswith | |];
      rewrite tmp_tail_eq.
    + reflexivity.
    + rewrite endswith_sep_append by apply str_tail. apply str_tail.
  - intros H. apply OK_inj in H. subst root.
    destruct (id j) as [n|]; simpl.
    + apply join_relative_tail; [apply str_startswith | |]; apply str_tail.
    + apply join_relative_tail; reflexivity.
Qed.


Lemma join_absolute (h f : string) :
  startswith_sep f = true -> os_path_join h f = f.
Proof. intros Hf. unfold os_path_join. now rewrite Hf. Qed.


Lemma user_path_default (call : Callable -> string -> Res string)
    (a : UploadAttr) (f : string) :
  keeps_default a = true -> _user_path call a f = OK None.
Proof.
  destruct a as [|p|[b|g]]; simpl; intros H; try reflexivity.
  - now rewrite H.
  - destruct b; reflexivity.
  - discriminate.
Qed.

Lemma user_path_absolute (call : Callable -> string -> Res string)
    (a : UploadAttr) (f d : string) :
  no_user_function a = true -> startswith_sep f = true ->
  exists r, _user_path call a f = OK r /\ or_else r (os_path_join d f) = f.
Proof.
  intros Ha Hf. destruct a as [|p|[b|g]]; simpl in *.
  - exists None. split; [reflexivity | now apply join_absolute].
  - destruct (is_empty p).
    + exists None. split; [reflexivity | now apply join_absolute].
    + exists (Some (os_path_join p f)). split; [reflexivity|].
      simpl. rewrite join_absolute by exact Hf.
      destruct f; [discriminate | reflexivity].
  - exists None. split; [destruct b; reflexivity | now apply join_absolute].
  - discriminate.
Qed.

(** X7: an absolute file name is returned as it is by [job_root], and by
    [job_data] and [job_results] unless the override is a function of the
    user's own: the job folder does not confine it. *)
Theorem absolute_filename_escapes (st : Settings) (c : JobClass) (j : Job)
    (root f : string) :
  root_job st c j = OK root -> startswith_sep f = true ->
  job_root st c j f = OK f
  /\ (forall a, upload_to_data c = Some a -> no_user_function a = true ->
        job_data st (AJobInst c j) f = OK f)
  /\ (no_user_function (upload_to_results c) = true ->
        job_results st (AJobInst c j) f = OK f).
Proof.
  intros Hroot Hf. split_and!.
  - unfold job_root. rewrite Hroot. simpl. now rewrite join_absolute.
  - intros a Ha Hno. unfold job_data, job_data_with. rewrite Hroot, Ha. cbn [bind].
    destruct (user_path_absolute (call st recursion_limit (AJobInst c j))
                a f "data" Hno Hf) as (r & -> & Hr).
    cbn [bind]. rewrite Hr. now rewrite join_absolute.
  - intros Hno. unfold job_results, job_results_with.
    destruct (user_path_absolute (call st recursion_limit (AJobInst c j))
                (upload_to_results c) f "results" Hno Hf) as (r & -> & Hr).
    cbn [bind]. rewrite Hroot. cbn [bind]. rewrite Hr. now rewrite join_absolute.
Qed.

Lemma absolute_filename_escapes_witness :
  job_root sample_settings sample_class promoted_job "/etc/passwd"
    = OK "/etc/passwd"
  /\ job_data sample_settings (AJobInst sample_class promoted_job) "/etc/passwd"
    = OK "/etc/passwd"
  /\ job_results sample_settings (AJobInst sample_class promoted_job) "/etc/passwd"
    = OK "/etc/passwd".
Proof.
  destruct (absolute_filename_escapes sample_settings sample_class promoted_job
              "/srv/app/myjob/7" "/etc/passwd") as (H1 & H2 & H3).
  - reflexivity.
  - reflexivity.
  - split_and!; [exact H1 | apply (H2 UNone); reflexivity | apply H3; reflexivity].
Defined.



(** X9: under the same conditions the data path and the results path of a
    relative file name differ, while for an absolute file name they are the
    same path. *)
Theorem data_and_results_apart (st : Settings) (c : JobClass) (j : Job)
    (root f : string) (a : UploadAttr) :
  not_callable c -> root_job st c j = OK root ->
  upload_to_data c = Some a -> keeps_default a = true ->
  keeps_default (upload_to_results c) = true ->
  (startswith_sep f = false ->
     job_data st (AJobInst c j) f <> job_results st (AJobInst c j) f)
  /\ (startswith_sep f = true ->
     job_data st (AJobInst c j) f = job_results st (AJobInst c j) f).
Proof.
  intros Hc Hroot Ha Hda Hdr.
  destruct (root_job_shape st c j root Hc Hroot) as [He Hs].
  assert (Hd : job_data st (AJobInst c j) f
               = OK (os_path_join root (os_path_join "data" f))).
  { unfold job_data, job_data_with. rewrite Hroot, Ha. cbn [bind].
    rewrite user_path_default by exact Hda. reflexivity. }
  assert (Hr : job_results st (AJobInst c j) f
               = OK (os_path_join root (os_path_join "results" f))).
  { unfold job_results, job_results_with.
    rewrite user_path_default by exact Hdr. cbn [bind]. rewrite Hroot.
    reflexivity. }
  rewrite Hd, Hr. split; intros Hf.
  - intros H. apply OK_inj in H.
    apply join_inj_tail in H;
      [| unfold os_path_join; rewrite Hf; reflexivity
       | unfold os_path_join; rewrite Hf; reflexivity].
    unfold os_path_join in H. rewrite Hf in H. discriminate.
  - now rewrite !(join_absolute _ f Hf).
Qed.

Lemma data_and_results_apart_witness :
  job_data sample_settings (AJobInst sample_class promoted_job) "a.txt"
  <> job_results sample_settings (AJobInst sample_class promoted_job) "a.txt".
Proof.
  destruct (data_and_results_apart sample_settings sample_class promoted_job
              "/srv/app/myjob/7" "a.txt" UNone) as [H _].
  - intros f. discriminate.
  - reflexivity.
  - reflexivity.
  - reflexivity.
  - reflexivity.
  - apply H. reflexivity.
Defined.

(** ** Base names *)







(** ** Data files *)




(** * Further properties of the promotion and of [save] *)

Section PromotionOutcome.

Variable st : Settings.
Variable alt : FS -> string -> string.

(** X12: whatever its outcome, [move_to_data] leaves [id], [timestamp],
    [closure] and [identifier] of the instance as they were. *)
Theorem move_to_data_keeps_row (c : JobClass) (created : bool) (j : Job) (fs : FS) :
  same_row j (move_to_data st alt c created j fs).1.1.
Proof.
  destruct (move_to_data st alt c created j fs) as [[j' fs'] e] eqn:H.
  exact (move_to_data_same_row st alt c created j fs j' fs' e H).
Qed.

(** One turn of the loop on the head of the pending list either takes the
    field off the list or changes nothing at all. *)
Lemma promote_field_outcome (c : JobClass) (j : Job) (fs : FS) (f : string)
    (rest : list string) (j' : Job) (fs' : FS) (e : option exn) :
  _tmp_files j = Some (f :: rest) ->
  promote_field st alt c j fs f = (j', fs', e) ->
  _tmp_id j' = _tmp_id j
  /\ ((e = None /\ _tmp_files j' = Some rest)
      \/ (e <> None /\ j' = j /\ fs' = fs)).
Proof.
  unfold promote_field. intros Hpend H.
  repeat (case_match; simplify_eq); simpl in *;
    try (split; [reflexivity|]; right; split_and!; [discriminate | reflexivity..]).
  - rewrite Hpend in *. simplify_eq. rewrite list_remove_head in *. simplify_eq.
    split; [reflexivity|]. left. auto.
  - rewrite Hpend in *. simplify_eq. rewrite list_remove_head in *. discriminate.
  - rewrite Hpend in *. discriminate.
Qed.

(** The loop stops at the first field that fails, with the pending list
    holding that field and the ones after it. *)
Lemma promote_outcome (c : JobClass) (l : list string) :
  forall (rest : list string) (j : Job) (fs : FS) (j' : Job) (fs' : FS)
         (e : option exn),
    _tmp_files j = Some (l ++ rest) ->
    promote st alt c l j fs = (j', fs', e) ->
    _tmp_id j' = _tmp_id j
    /\ exists done todo,
         l = done ++ todo /\ _tmp_files j' = Some (todo ++ rest)
         /\ (e = None -> todo = []).
Proof.
  induction l as [|f l IH]; intros rest j fs j' fs' e Hpend H; simpl in H.
  - simplify_eq. split; [reflexivity|]. exists [], []. auto.
  - destruct (promote_field st alt c j fs f) as [[j1 fs1] e1] eqn:Hf.
    destruct (promote_field_outcome c j fs f (l ++ rest) j1 fs1 e1 Hpend Hf)
      as [Htid [[-> Hp1]|(Hne & -> & ->)]].
    + destruct (IH rest j1 fs1 j' fs' e Hp1 H) as (Htid' & done & todo & -> & Hp & He).
      split; [congruence|]. exists (f :: done), todo. auto.
    + destruct e1 as [e1|]; [|contradiction]. simplify_eq.
      split; [reflexivity|]. exists [], (f :: l). split_and!; [reflexivity | exact Hpend | discriminate].
Qed.

(** X13: whenever [move_to_data] completes for a created instance, the
    pending list is empty and the temporary identity is 0 on that instance;
    with its id set and no callable [job_root], its folder is then the one of
    its id. *)
Theorem move_to_data_completed (c : JobClass) (j : Job) (fs : FS)
    (j' : Job) (fs' : FS) :
  move_to_data st alt c true j fs = (j', fs', None) ->
  _tmp_files j' = Some [] /\ _tmp_id j' = Some 0
  /\ forall n, not_callable c -> id j = Some n -> n <> 0 ->
       root_job st c j' = OK (os_path_join (root_head st c) (str n)).
Proof.
  intros H.
  pose proof (move_to_data_same_row st alt c true j fs j' fs' None H) as (Hid & _).
  unfold move_to_data in H.
  destruct (required_user_files c) as [required|]; [|discriminate].
  destruct (promote st alt c required (set_tmp_files (Some required) j) fs)
    as [[j1 fs1] [e1|]] eqn:Hp; [discriminate|].
  destruct (promote_outcome c required []
              (set_tmp_files (Some required) j) fs j1 fs1 None
              (eq_sym (f_equal Some (app_nil_r required))) Hp)
    as (_ & done & todo & _ & Hpend & Hnil).
  rewrite (Hnil eq_refl) in Hpend.
  destruct (root_job st c j1); [|discriminate].
  destruct (rmtree fs1 a); [|discriminate].
  simplify_eq. split_and!; [exact Hpend | reflexivity|].
  intros n Hc Hn Hn0.
  apply (root_job_exhausted st c (set_tmp_id (Some 0) j1) n Hc);
    [simpl in *; congruence | exact Hn0 | reflexivity].
Qed.

(** X14: whatever the outcome of [move_to_data] for a created instance of a
    model with required files, the pending list it leaves is the required
    list without some of its first fields; when an exception is raised the
    temporary identity is not exhausted. *)
Theorem move_to_data_pending_suffix (c : JobClass) (j : Job) (fs : FS)
    (required : list string) (j' : Job) (fs' : FS) (e : option exn) :
  required_user_files c = Some required ->
  move_to_data st alt c true j fs = (j', fs', e) ->
  (exists done todo, required = done ++ todo /\ _tmp_files j' = Some todo)
  /\ (e <> None -> _tmp_id j' = _tmp_id j).
Proof.
  intros Hreq H. unfold move_to_data in H. rewrite Hreq in H.
  destruct (promote st alt c required (set_tmp_files (Some required) j) fs)
    as [[j1 fs1] e1] eqn:Hp.
  destruct (promote_outcome c required []
              (set_tmp_files (Some required) j) fs j1 fs1 e1
              (eq_sym (f_equal Some (app_nil_r required))) Hp)
    as (Htid & done & todo & Hsplit & Hpend & _).
  rewrite app_nil_r in Hpend. simpl in Htid.
  assert (Hex : exists done todo, required = done ++ todo /\ _tmp_files j1 = Some todo)
    by (exists done, todo; auto).
  destruct e1 as [e1|]; [simplify_eq; auto|].
  destruct (root_job st c j1); [|simplify_eq; auto].
  destruct (rmtree fs1 a); simplify_eq; [|auto].
  split; [exact Hex | intros Hne; contradiction].
Qed.

End PromotionOutcome.

Lemma move_to_data_completed_witness :
  _tmp_files (move_to_data sample_settings sample_alt sample_class true
                inserted_job sample_fs).1.1 = Some []
  /\ _tmp_id (move_to_data sample_settings sample_alt sample_class true
                inserted_job sample_fs).1.1 = Some 0
  /\ forall n, not_callable sample_class -> id inserted_job = Some n -> n <> 0 ->
       root_job sample_settings sample_class
         (move_to_data sample_settings sample_alt sample_class true
            inserted_job sample_fs).1.1
       = OK (os_path_join (root_head sample_settings sample_class) (str n)).
Proof.
  apply (move_to_data_completed sample_settings sample_alt sample_class
           inserted_job sample_fs _
           (move_to_data sample_settings sample_alt sample_class true
              inserted_job sample_fs).1.2).
  vm_compute. reflexivity.
Defined.

Lemma move_to_data_pending_suffix_witness :
  (exists done todo,
      ["f"; "g"] = done ++ todo
      /\ _tmp_files incomplete_promoted.1.1 = Some todo)
  /\ (Some (FileNotFoundError (missing_message "g")) <> None ->
      _tmp_id incomplete_promoted.1.1
      = _tmp_id (set_timestamp (Some sample_now) (set_id (Some 7) incomplete_job))).
Proof.
  apply (move_to_data_pending_suffix sample_settings sample_alt sample_class
           (set_timestamp (Some sample_now) (set_id (Some 7) incomplete_job))
           sample_fs ["f"; "g"] incomplete_promoted.1.1 incomplete_promoted.1.2).
  - reflexivity.
  - vm_compute. reflexivity.
Defined.

Section SaveOutcome.

Variable st : Settings.
Variable alt : FS -> string -> string.

(** A write that raises nothing was not stopped by the receiver's check for
    [required_user_files]. *)
Lemma model_save_connected (now : Z) (c : JobClass) (j : Job) (fs : FS) (db : DB)
    (j' : Job) (fs' : FS) (db' : DB) :
  model_save st alt now c j fs db = ((j', fs', None), db') ->
  post_save_connected c = true -> is_Some (required_user_files c).
Proof.
  unfold model_save, move_to_data. intros H Hconn. rewrite Hconn in H.
  destruct (required_user_files c) as [required|]; [eexists; reflexivity|].
  repeat (case_match; simplify_eq).
Qed.

Lemma model_save_update_ok (now : Z) (c : JobClass) (j : Job) (fs : FS) (db : DB)
    (n : Z) :
  id j = Some n -> n ∈ rows db ->
  (post_save_connected c = true -> is_Some (required_user_files c)) ->
  model_save st alt now c j fs db = ((j, fs, None), db).
Proof.
  intros Hid Hin Hreq. unfold model_save. rewrite Hid.
  destruct (decide (n ∈ rows db)); [|contradiction].
  destruct (post_save_connected c); [|reflexivity].
  destruct (Hreq eq_refl) as [required Hr]. unfold move_to_data. now rewrite Hr.
Qed.

(** A save that raises nothing leaves an instance whose row exists. *)
Lemma save_outcome_row (now : Z) (ok : bool) (c : JobClass) (j : Job) (fs : FS)
    (db : DB) (j' : Job) (fs' : FS) (db' : DB) :
  save st alt now ok c j fs db = ((j', fs', None), db') ->
  (exists n, id j' = Some n /\ n ∈ rows db')
  /\ (post_save_connected c = true -> is_Some (required_user_files c)).
Proof.
  unfold save. intros H.
  destruct (model_save st alt now c j fs db) as [[[j1 fs1] [e1|]] db1] eqn:H1;
    [simplify_eq|].
  destruct (model_save_row st alt _ _ _ _ _ _ _ _ _ H1) as (_ & n & Hn & Hin & _).
  split; [|exact (model_save_connected _ _ _ _ _ _ _ _ H1)].
  destruct (negb (truthy_int (id j))); [|simplify_eq; eauto].
  destruct (timestamp j1) as [t|]; [|simplify_eq].
  destruct (add_timedelta t (TTL st)) as [cl|]; [|simplify_eq].
  destruct (model_save st alt now c (set_closure (Some cl) j1) fs1 db1)
    as [[[j3 fs3] [e3|]] db3] eqn:H2; [simplify_eq|].
  destruct (model_save_update st alt now c (set_closure (Some cl) j1)
              fs1 db1 n j3 fs3 db3 Hn Hin H2) as (-> & -> & ->).
  repeat (case_match; simplify_eq). exists n. auto.
Qed.

(** X16: once a save has completed and left a usable id, saving the same
    instance again changes neither the instance nor the storage nor the
    table, and raises nothing. *)
Theorem save_again_is_identity (now : Z) (ok : bool) (c : JobClass) (j : Job)
    (fs : FS) (db : DB) (j' : Job) (fs' : FS) (db' : DB) :
  save st alt now ok c j fs db = ((j', fs', None), db') ->
  truthy_int (id j') = true ->
  forall now' ok', save st alt now' ok' c j' fs' db' = ((j', fs', None), db').
Proof.
  intros H Htruthy now' ok'.
  destruct (save_outcome_row _ _ _ _ _ _ _ _ _ H) as ((n & Hn & Hin) & Hreq).
  unfold save. rewrite Htruthy. simpl negb.
  now rewrite (model_save_update_ok now' c j' fs' db' n Hn Hin Hreq).
Qed.

(** X17: when the first write of [save], promotion included, raises, [save]
    stops with that exception and [closure] is what it was before. *)
Theorem save_first_write_raises (now : Z) (ok : bool) (c : JobClass) (j : Job)
    (fs : FS) (db : DB) (j1 : Job) (fs1 : FS) (e : exn) (db1 : DB) :
  model_save st alt now c j fs db = ((j1, fs1, Some e), db1) ->
  save st alt now ok c j fs db = ((j1, fs1, Some e), db1)
  /\ closure j1 = closure j.
Proof.
  intros H. split.
  - unfold save. now rewrite H.
  - exact (proj1 (model_save_row st alt _ _ _ _ _ _ _ _ _ H)).
Qed.

(** X15: for a model with the manager attached and no required file, the
    creation save raises [FileNotFoundError] for the temporary folder when
    that folder does not exist: the id is assigned, [closure] is not set. *)
Theorem save_without_required_files (now : Z) (ok : bool) (c : JobClass)
    (j : Job) (fs : FS) (db : DB) (t : Z) :
  id j = None -> post_save_connected c = true ->
  required_user_files c = Some [] -> not_callable c ->
  getattr_tmp_id c j = Some t -> t <> 0 -> next_id db <> 0 ->
  os_path_join (root_head st c) (tmp_tail t) ∉ fs_dirs fs ->
  save st alt now ok c j fs db
  = ((set_tmp_files (Some [])
        (set_timestamp (Some now) (set_id (Some (next_id db)) j)),
      fs,
      Some (FileNotFoundError (os_path_join (root_head st c) (tmp_tail t)))),
     {| next_id := next_id db + 1; rows := {[ next_id db ]} ∪ rows db |}).
Proof.
  intros Hid Hconn Hreq Hc Ht Ht0 Hnext Hdir.
  unfold save, model_save. rewrite Hid, Hconn. simpl truthy_int. simpl negb.
  unfold move_to_data. rewrite Hreq. simpl promote. cbv beta iota zeta.
  set (j0 := set_tmp_files (Some [])
               (set_timestamp (Some now) (set_id (Some (next_id db)) j))).
  assert (Hg : getattr_tmp_id c j0 = Some t) by exact Ht.
  assert (Hu : uses_tmp c j0 = true).
  { apply (uses_tmp_spec c j0 t Hg). right. split; [exact Ht0 | now right]. }
  rewrite root_job_not_callable by exact Hc. rewrite Hu, Hg.
  unfold rmtree.
  destruct (decide (os_path_join (root_head st c) (tmp_tail t) ∈ fs_dirs fs));
    [contradiction | reflexivity].
Qed.

(** X18: when the results folder of the job already exists at the end of the
    creation save, [save] completes with [results_exist_ok] and raises
    [FileExistsError] without it; in both cases [closure] has been set. *)
Theorem save_results_folder_exists (now : Z) (c : JobClass) (j : Job) (fs : FS)
    (db : DB) (j1 : Job) (fs1 : FS) (db1 : DB) (t : Z) (results : string) :
  id_unset j ->
  model_save st alt now c j fs db = ((j1, fs1, None), db1) ->
  timestamp j1 = Some t ->
  datetime_min <= t + TTL st <= datetime_max ->
  job_results st (AJobInst c (set_closure (Some (t + TTL st)) j1)) EmptyString
    = OK results ->
  rstrip_sep (os_path_join (MEDIA_ROOT st) results) ∈ fs_dirs fs1 ->
  save st alt now true c j fs db
    = ((set_closure (Some (t + TTL st)) j1, fs1, None), db1)
  /\ save st alt now false c j fs db
    = ((set_closure (Some (t + TTL st)) j1, fs1,
        Some (FileExistsError
                (rstrip_sep (os_path_join (MEDIA_ROOT st) results)))), db1).
Proof.
  intros Hun H1 Ht Hrange Hres Hdir.
  apply truthy_id_unset in Hun.
  destruct (model_save_row st alt _ _ _ _ _ _ _ _ _ H1) as (_ & n & Hn & Hin & _).
  pose proof (model_save_connected _ _ _ _ _ _ _ _ H1) as Hreq.
  assert (Hadd : add_timedelta t (TTL st) = OK (t + TTL st)).
  { unfold add_timedelta.
    destruct (Z.leb_spec datetime_min (t + TTL st)); [|lia].
    destruct (Z.leb_spec (t + TTL st) datetime_max); [reflexivity | lia]. }
  assert (H2 : model_save st alt now c (set_closure (Some (t + TTL st)) j1) fs1 db1
               = ((set_closure (Some (t + TTL st)) j1, fs1, None), db1)).
  { apply (model_save_update_ok now c _ fs1 db1 n); auto. }
  split; unfold save; rewrite Hun, H1, Ht, Hadd, H2, Hres; simpl negb;
    cbv iota; unfold makedirs;
    destruct (decide (rstrip_sep (os_path_join (MEDIA_ROOT st) results)
                        ∈ fs_dirs fs1)); try contradiction; reflexivity.
Qed.

End SaveOutcome.

Lemma save_again_is_identity_witness :
  save sample_settings sample_alt (sample_now + 60000000) true sample_class
    sample_saved.1.1.1 sample_saved.1.1.2 sample_saved.2
  = ((sample_saved.1.1.1, sample_saved.1.1.2, None), sample_saved.2).
Proof.
  apply (save_again_is_identity sample_settings sample_alt sample_now false
           sample_class sample_job sample_fs sample_db).
  - vm_compute. reflexivity.
  - vm_compute. reflexivity.
Defined.

Lemma save_first_write_raises_witness :
  save sample_settings sample_alt sample_now false sample_class
    incomplete_job sample_fs sample_db
  = ((incomplete_promoted.1.1, incomplete_promoted.1.2,
      Some (FileNotFoundError (missing_message "g"))),
     {| next_id := 8; rows := {[ 7 ]} ∪ ∅ |})
  /\ closure incomplete_promoted.1.1 = closure incomplete_job.
Proof.
  apply (save_first_write_raises sample_settings sample_alt sample_now false
           sample_class incomplete_job sample_fs sample_db).
  vm_compute. reflexivity.
Defined.

Lemma save_without_required_files_witness :
  save sample_settings sample_alt sample_now false bare_class
    (new_job "" ∅) empty_fs sample_db
  = ((set_tmp_files (Some [])
        (set_timestamp (Some sample_now) (set_id (Some 7) (new_job "" ∅))),
      empty_fs,
      Some (FileNotFoundError "/srv/app/bare/tmp/1000000")),
     {| next_id := 8; rows := {[ 7 ]} ∪ ∅ |}).
Proof.
  apply (save_without_required_files sample_settings sample_alt sample_now false
           bare_class (new_job "" ∅) empty_fs sample_db 1000000).
  - reflexivity.
  - reflexivity.
  - reflexivity.
  - intros f. discriminate.
  - reflexivity.
  - lia.
  - simpl. lia.
  - refine (bool_decide_unpack _ _). vm_compute. exact I.
Defined.

Lemma save_results_folder_exists_witness :
  save sample_settings sample_alt sample_now true sample_class sample_job
    sample_fs_with_results sample_db
    = ((set_closure (Some (sample_now + 3600000000)) sample_first_write.1.1.1,
        sample_first_write.1.1.2, None), sample_first_write.2)
  /\ save sample_settings sample_alt sample_now false sample_class sample_job
       sample_fs_with_results sample_db
    = ((set_closure (Some (sample_now + 3600000000)) sample_first_write.1.1.1,
        sample_first_write.1.1.2,
        Some (FileExistsError "/srv/app/myjob/7/results")), sample_first_write.2).
Proof.
  apply (save_results_folder_exists sample_settings sample_alt sample_now
           sample_class sample_job sample_fs_with_results sample_db
           sample_first_write.1.1.1 sample_first_write.1.1.2 sample_first_write.2
           sample_now "/srv/app/myjob/7/results/").
  - left. reflexivity.
  - vm_compute. reflexivity.
  - vm_compute. reflexivity.
  - vm_compute. split; discriminate.
  - vm_compute. reflexivity.
  - refine (bool_decide_unpack _ _). vm_compute. exact I.
Defined.

(** ** What promotion leaves alone *)

Lemma rmtree_keeps_dir (fs fs' : FS) (path d : string) :
  rmtree fs path = OK fs' ->
  d ∈ fs_dirs fs -> d <> path -> under path d = false -> d ∈ fs_dirs fs'.
Proof.
  unfold rmtree. destruct (decide (path ∈ fs_dirs fs)); [|discriminate].
  intros H. apply OK_inj in H. subst fs'. simpl. intros Hd Hne Hu.
  apply elem_of_filter. auto.
Qed.

(** X22: a promotion that runs to its end touches nothing else: fields that
    are not required keep their file, files outside the temporary folder
    that are neither an upload nor a destination keep their contents, and
    the directories outside the temporary folder stay. *)
Theorem move_to_data_frame (st : Settings) (alt : FS -> string -> string)
    (c : JobClass) (j : Job) (fs : FS) (n t : Z) (required : list string)
    (old dest : string -> string) :
  not_callable c ->
  required_user_files c = Some required ->
  n <> 0 -> getattr_tmp_id c j = Some t -> t <> 0 ->
  stable st c n (_tmp_id j) old dest required ->
  ready c n (_tmp_id j) old dest required j fs ->
  NoDup (dest <$> required) -> NoDup (old <$> required) ->
  (os_path_join (root_head st c) (tmp_tail t) ∈ fs_dirs fs) ->
  exists j' fs',
    move_to_data st alt c true j fs = (j', fs', None)
    /\ (forall f, f ∉ required -> file_names j' !! f = file_names j !! f)
    /\ (forall p, under (os_path_join (root_head st c) (tmp_tail t)) p = false ->
          p ∉ old <$> required -> p ∉ dest <$> required ->
          fs_files fs' !! p = fs_files fs !! p)
    /\ (forall d, d ∈ fs_dirs fs ->
          d <> os_path_join (root_head st c) (tmp_tail t) ->
          under (os_path_join (root_head st c) (tmp_tail t)) d = false ->
          d ∈ fs_dirs fs').
Proof.
  intros Hc Hreq Hn Ht Ht0 Hst Hready Hnd Hno Hdir.
  set (tmp_root := os_path_join (root_head st c) (tmp_tail t)) in *.
  assert (Hready0 : ready c n (_tmp_id j) old dest required
                      (set_tmp_files (Some required) j) fs) by exact Hready.
  destruct (promote_run st alt c n (_tmp_id j) old dest required []
              (set_tmp_files (Some required) j) fs Hst Hnd Hno Hready0)
    as (j1 & fs1 & Hrun & Hpend & Hid1 & Htid1 & _ & Hout & Hfs & Hdirs).
  { simpl. now rewrite app_nil_r. }
  assert (Hroot : root_job st c j1 = OK tmp_root).
  { rewrite root_job_not_callable by exact Hc.
    assert (Hg : getattr_tmp_id c j1 = Some t).
    { unfold getattr_tmp_id in *. now rewrite Htid1. }
    assert (Hu : uses_tmp c j1 = true).
    { apply (uses_tmp_spec c j1 t Hg). right. split; [exact Ht0 | now right]. }
    now rewrite Hu, Hg. }
  destruct (rmtree_ok fs1 tmp_root) as (fs2 & Hrm & _ & _ & Hkeep & _).
  { apply Hdirs. exact Hdir. }
  exists (set_tmp_id (Some 0) j1), fs2. split_and!.
  - unfold move_to_data. rewrite Hreq, Hrun, Hroot, Hrm. reflexivity.
  - intros f Hf. exact (Hout f Hf).
  - intros p Hp Hpo Hpd. rewrite Hkeep by exact Hp. now apply Hfs.
  - intros d Hd Hne Hu.
    apply (rmtree_keeps_dir fs1 fs2 tmp_root d Hrm); auto.
Qed.

Lemma move_to_data_frame_witness :
  exists j' fs',
    move_to_data sample_settings sample_alt sample_class true inserted_job sample_fs
      = (j', fs', None)
    /\ (forall f, f ∉ ["f"; "g"] ->
          file_names j' !! f = file_names inserted_job !! f)
    /\ (forall p, under "/srv/app/myjob/tmp/1234567" p = false ->
          p ∉ sample_old <$> ["f"; "g"] -> p ∉ sample_dest <$> ["f"; "g"] ->
          fs_files fs' !! p = fs_files sample_fs !! p)
    /\ (forall d, d ∈ fs_dirs sample_fs ->
          d <> "/srv/app/myjob/tmp/1234567" ->
          under "/srv/app/myjob/tmp/1234567" d = false ->
          d ∈ fs_dirs fs').
Proof.
  apply (move_to_data_frame sample_settings sample_alt sample_class
           inserted_job sample_fs 7 1234567 ["f"; "g"] sample_old sample_dest).
  - intros f. discriminate.
  - reflexivity.
  - lia.
  - reflexivity.
  - lia.
  - intros f u j' Hf Hu Hid Htid Hpend.
    assert (Hu' : u = ToJobData).
    { destruct (sample_fields f Hf) as [->| ->]; vm_compute in Hu; congruence. }
    subst u. unfold upload_to, job_data, job_data_with, root_job, uses_tmp,
      getattr_tmp_id.
    rewrite Hid, Htid, Hpend.
    destruct (sample_fields f Hf) as [->| ->]; vm_compute; reflexivity.
  - split; [reflexivity|]. split; [reflexivity|]. intros f Hf.
    destruct (sample_fields f Hf) as [->| ->]; split_and!;
      try (eexists; vm_compute; reflexivity); vm_compute; reflexivity.
  - refine (bool_decide_unpack _ _). vm_compute. exact I.
  - refine (bool_decide_unpack _ _). vm_compute. exact I.
  - refine (bool_decide_unpack _ _). vm_compute. exact I.
Defined.

(** * Further properties of the model class *)

Lemma class_min_search_zero (allowed : ascii -> bool) (s : string) :
  class_min_search allowed 0 s = true.
Proof. destruct s; reflexivity. Qed.

(** X19: the pattern of [IDENTIFIER_REGEX] has no anchors and asks for no
    character at all, so its search succeeds on every string, also on one
    with characters outside [[a-zA-Z0-9]]. *)
Theorem identifier_regex_accepts_all (value : string) :
  IDENTIFIER_REGEX_search value = true.
Proof. apply class_min_search_zero. Qed.

(** The same search with a minimum of one character rejects a string without
    any character of the class. *)
Lemma class_min_search_one_example :
  class_min_search IDENTIFIER_ALLOWED_CHARS 1 "a b!" = true
  /\ class_min_search IDENTIFIER_ALLOWED_CHARS 1 " !" = false
  /\ IDENTIFIER_REGEX_search " !" = true.
Proof. repeat split. Qed.

(** X20: with an empty identifier the default slug is the first character of
    the class name followed by the timestamp, eleven characters in all. *)
Theorem slug_default_empty_identifier (draw : Z) (c : JobClass) (j : Job)
    (ch : ascii) (rest : string) (t : Z) :
  identifier j = EmptyString -> __name__ c = String ch rest ->
  timestamp j = Some t ->
  slug_default draw c j = OK (String ch (strftime_yymmddHHMM t))
  /\ String.length (String ch (strftime_yymmddHHMM t)) = 11%nat.
Proof.
  intros Hid Hname Ht.
  assert (Hlen : String.length (String ch (strftime_yymmddHHMM t)) = 11%nat).
  { change (S (String.length (strftime_yymmddHHMM t)) = 11%nat).
    now rewrite strftime_length. }
  split; [|exact Hlen].
  unfold slug_default, slug_seed. rewrite Hid, Hname, Ht. cbn [is_empty bind].
  change (String ch EmptyString +:+ strftime_yymmddHHMM t)
    with (String ch (strftime_yymmddHHMM t)).
  unfold slug_fit. rewrite Hlen. reflexivity.
Qed.

Lemma slug_default_empty_identifier_witness :
  slug_default 0 sample_class
    (set_timestamp (Some sample_now) (new_job "" ∅))
  = OK "M2305011030"
  /\ String.length "M2305011030" = 11%nat.
Proof.
  apply (slug_default_empty_identifier 0 sample_class
           (set_timestamp (Some sample_now) (new_job "" ∅))
           "M"%char "yJob" sample_now).
  - reflexivity.
  - reflexivity.
  - reflexivity.
Defined.

(** X21: as [@unique] demands, no two members of [EStates] share a value, and
    no two members of [EStatuses] do; their labels are distinct too. *)
Theorem enumerations_unique :
  (forall s1 s2, EStates_value s1 = EStates_value s2 -> s1 = s2)
  /\ (forall s1 s2, EStatuses_value s1 = EStatuses_value s2 -> s1 = s2)
  /\ (forall s1 s2, EStates_label s1 = EStates_label s2 -> s1 = s2)
  /\ (forall s1 s2, EStatuses_label s1 = EStatuses_label s2 -> s1 = s2).
Proof.
  split_and!; intros [] []; simpl; intros H;
    try reflexivity; discriminate.
Qed.
